(** * Image/annotation store and detection pipeline of [app.py]

    A shallow embedding of the Flask handlers of [app.py] over an explicit
    model of the MongoDB collection they talk to, followed by the properties
    the specification states about them.

    Conventions.
    - A Python [bytes] value is a [list byte].
    - A Python [str] is a [string], read as the UTF-8 encoding of the text
      (ASCII text is its own encoding).  [bytes.decode('utf-8')] is therefore
      a validity check that keeps the bytes.  A filename or a form field is
      always text; a string of a JSON body may hold an unpaired surrogate
      (the parser takes the escape), which is held as the three bytes of
      its code point and is not well-formed UTF-8.
    - The collection is the list of its documents in natural (insertion)
      order; the server-assigned [_id] is not modelled, no handler reads it.
    - A handler runs in a state-and-exception monad over the collection; an
      exception that escapes a handler is turned by Flask into a 500
      response.
    - The store refuses what BSON cannot hold (see [Bson]): the driver or
      the server then raises, and the collection is unchanged. *)

From Stdlib Require Import List Strings.String Strings.Ascii Strings.Byte.
From Stdlib Require Import Bool Arith NArith ZArith QArith Lia.
From Stdlib Require Import Floats.SpecFloat.
Import ListNotations.

Local Open Scope string_scope.
Local Open Scope list_scope.

(* ================================================================= *)
(** ** Python strings: [in], [rsplit], [lower] *)

Module PyStr.

(** [c in s] for a one-character [c]. *)
Fixpoint contains (c : ascii) (s : string) : bool :=
  match s with
  | EmptyString => false
  | String x rest => Ascii.eqb x c || contains c rest
  end.

(** [s.rsplit(sep, 1)]: split once, at the last occurrence of [sep];
    a one-element list when [sep] does not occur. *)
Fixpoint rsplit1 (sep : ascii) (s : string) : list string :=
  match s with
  | EmptyString => [EmptyString]
  | String x rest =>
      match rsplit1 sep rest with
      | [before; after] => [String x before; after]
      | _ => if Ascii.eqb x sep then [EmptyString; rest] else [String x rest]
      end
  end.

(** [str.lower] on one character.  Only [A-Z] are mapped: no character
    outside ASCII lowercases to a string of ASCII letters among
    [p n g j e i f], so membership in the extension set is unaffected. *)
Definition lower_ascii (c : ascii) : ascii :=
  let n := nat_of_ascii c in
  if (65 <=? n)%nat && (n <=? 90)%nat then ascii_of_nat (n + 32) else c.

Fixpoint lower (s : string) : string :=
  match s with
  | EmptyString => EmptyString
  | String x rest => String (lower_ascii x) (lower rest)
  end.

(** [x in xs] for a collection of strings. *)
Definition mem (x : string) (xs : list string) : bool :=
  existsb (String.eqb x) xs.

(** [bool(s)]: a string is truthy when it is not empty. *)
Definition truthy (s : string) : bool :=
  match s with EmptyString => false | _ => true end.

End PyStr.

(** [app.config['ALLOWED_EXTENSIONS']] *)
Definition ALLOWED_EXTENSIONS : list string := ["png"; "jpg"; "jpeg"; "gif"].

(** [allowed_file]: [and] short-circuits, so the subscript [[1]] is only
    evaluated when the name contains a dot. *)
Definition allowed_file (filename : string) : bool :=
  if PyStr.contains "." filename then
    match nth_error (PyStr.rsplit1 "." filename) 1 with
    | Some ext => PyStr.mem (PyStr.lower ext) ALLOWED_EXTENSIONS
    | None => false
    end
  else false.

(* ================================================================= *)
(** ** The text encoding: [base64.b64encode] / [base64.b64decode] *)

Module Base64.

Local Open Scope N_scope.

(** Truncation to an [unsigned char]. *)
Definition byte_of_N (n : N) : byte :=
  match Byte.of_N (n mod 256) with
  | Some b => b
  | None => x00
  end.

Definition BASE64_PAD : byte := "="%byte.

Definition table_b2a_base64 : list byte :=
  list_byte_of_string
    "ABCDEFGHIJKLMNOPQRSTUVWXYZabcdefghijklmnopqrstuvwxyz0123456789+/".

Definition b2a (sextet : N) : byte :=
  nth (N.to_nat sextet) table_b2a_base64 BASE64_PAD.

Fixpoint index_of (c : byte) (tbl : list byte) (i : N) : N :=
  match tbl with
  | [] => 255
  | x :: rest => if Byte.eqb x c then i else index_of c rest (i + 1)
  end.

(** The reverse table; 255 (that is, [(unsigned char)-1]) marks a byte
    outside the alphabet. *)
Definition table_a2b_base64 (c : byte) : N :=
  index_of c table_b2a_base64 0.

(** [b64encode]: three bytes make four characters; one or two trailing
    bytes are completed with [=]. *)
Fixpoint b64encode (bin : list byte) : list byte :=
  match bin with
  | [] => []
  | [a] =>
      let a := Byte.to_N a in
      [b2a (N.shiftr a 2); b2a (N.shiftl (N.land a 3) 4);
       BASE64_PAD; BASE64_PAD]
  | [a; b] =>
      let a := Byte.to_N a in
      let b := Byte.to_N b in
      [b2a (N.shiftr a 2);
       b2a (N.lor (N.shiftl (N.land a 3) 4) (N.shiftr b 4));
       b2a (N.shiftl (N.land b 15) 2);
       BASE64_PAD]
  | a :: b :: c :: rest =>
      let a := Byte.to_N a in
      let b := Byte.to_N b in
      let c := Byte.to_N c in
      b2a (N.shiftr a 2)
      :: b2a (N.lor (N.shiftl (N.land a 3) 4) (N.shiftr b 4))
      :: b2a (N.lor (N.shiftl (N.land b 15) 2) (N.shiftr c 6))
      :: b2a (N.land c 63)
      :: b64encode rest
  end.

(** The decoding loop of [binascii.a2b_base64] in its default, non-strict
    mode: bytes outside the alphabet are skipped, a complete pad sequence
    ends the input, and a dangling quad is an error ([None]).  The result
    is the bytes written from this point on. *)
Fixpoint a2b_loop (ascii : list byte) (quad_pos leftchar pads : N)
  : option (list byte) :=
  match ascii with
  | [] => if quad_pos =? 0 then Some [] else None
  | this_ch :: rest =>
      if Byte.eqb this_ch BASE64_PAD then
        if 2 <=? quad_pos then
          if 4 <=? quad_pos + (pads + 1) then Some []
          else a2b_loop rest quad_pos leftchar (pads + 1)
        else a2b_loop rest quad_pos leftchar pads
      else
        let v := table_a2b_base64 this_ch in
        if 64 <=? v then a2b_loop rest quad_pos leftchar pads
        else
          match quad_pos with
          | 0 => a2b_loop rest 1 v 0
          | 1 =>
              option_map
                (cons (byte_of_N (N.lor (N.shiftl leftchar 2) (N.shiftr v 4))))
                (a2b_loop rest 2 (N.land v 15) 0)
          | 2 =>
              option_map
                (cons (byte_of_N (N.lor (N.shiftl leftchar 4) (N.shiftr v 2))))
                (a2b_loop rest 3 (N.land v 3) 0)
          | _ =>
              option_map
                (cons (byte_of_N (N.lor (N.shiftl leftchar 6) v)))
                (a2b_loop rest 0 0 0)
          end
  end.

(** [b64decode] of a bytes value. *)
Definition b64decode (ascii : list byte) : option (list byte) :=
  a2b_loop ascii 0 0 0.

Definition is_ascii (b : byte) : bool := Byte.to_N b <? 128.

(** [b64decode] of a [str]: the text must be ASCII. *)
Definition b64decode_str (s : string) : option (list byte) :=
  let bs := list_byte_of_string s in
  if forallb is_ascii bs then b64decode bs else None.

End Base64.

(* ================================================================= *)
(** ** [bytes.decode('utf-8')] *)

Module Utf8.

Local Open Scope N_scope.

Definition between (lo hi : N) (b : byte) : bool :=
  (lo <=? Byte.to_N b) && (Byte.to_N b <=? hi).

Definition continuation (b : byte) : bool := between 0x80 0xBF b.

(** Well-formed UTF-8 byte sequences (Unicode, table 3-7): no overlong
    forms, no surrogates, nothing above U+10FFFF. *)
Fixpoint well_formed (bs : list byte) : bool :=
  match bs with
  | [] => true
  | b0 :: r0 =>
      if between 0x00 0x7F b0 then well_formed r0
      else
        match r0 with
        | [] => false
        | b1 :: r1 =>
            if between 0xC2 0xDF b0 then continuation b1 && well_formed r1
            else
              match r1 with
              | [] => false
              | b2 :: r2 =>
                  if between 0xE0 0xEF b0 then
                    (if between 0xE0 0xE0 b0 then between 0xA0 0xBF b1
                     else if between 0xED 0xED b0 then between 0x80 0x9F b1
                     else continuation b1)
                    && continuation b2 && well_formed r2
                  else
                    match r2 with
                    | [] => false
                    | b3 :: r3 =>
                        if between 0xF0 0xF4 b0 then
                          (if between 0xF0 0xF0 b0 then between 0x90 0xBF b1
                           else if between 0xF4 0xF4 b0 then between 0x80 0x8F b1
                           else continuation b1)
                          && continuation b2 && continuation b3
                          && well_formed r3
                        else false
                    end
              end
        end
  end.

(** [None] stands for [UnicodeDecodeError]. *)
Definition decode (bs : list byte) : option string :=
  if well_formed bs then Some (string_of_list_byte bs) else None.

End Utf8.

(* ================================================================= *)
(** ** JSON values and documents *)

(** A JSON-compatible value, as Flask parses it and as MongoDB stores it.
    An integer is a Python [int], of any size; a float is a binary64
    value, [NaN] and the infinities included (the parser takes them); an
    object is the list of its items in order, its keys distinct as the
    parser leaves them. *)
#[warnings="-register-all"]
Inductive json : Type :=
| JNull
| JBool (b : bool)
| JInt (z : Z)
| JFloat (f : spec_float)
| JStr (s : string)
| JList (items : list json)
| JDict (fields : list (string * json)).

(** Equality of two floats as stored: same sign, mantissa and exponent
    ([0.0] and [-0.0] differ, [NaN] is equal to itself). *)
Definition float_eqb (x y : spec_float) : bool :=
  match x, y with
  | S754_zero s, S754_zero s' => Bool.eqb s s'
  | S754_infinity s, S754_infinity s' => Bool.eqb s s'
  | S754_nan, S754_nan => true
  | S754_finite s m e, S754_finite s' m' e' =>
      Bool.eqb s s' && Pos.eqb m m' && Z.eqb e e'
  | _, _ => false
  end.

(** Equality of stored values, which decides whether an update changed a
    document: the server compares the encoded values, so an integer and a
    float are never equal. *)
Fixpoint json_eqb (a b : json) {struct a} : bool :=
  match a, b with
  | JNull, JNull => true
  | JBool x, JBool y => Bool.eqb x y
  | JInt x, JInt y => Z.eqb x y
  | JFloat x, JFloat y => float_eqb x y
  | JStr x, JStr y => String.eqb x y
  | JList xs, JList ys =>
      (fix all2 (xs ys : list json) {struct xs} : bool :=
         match xs, ys with
         | [], [] => true
         | x :: xs', y :: ys' => json_eqb x y && all2 xs' ys'
         | _, _ => false
         end) xs ys
  | JDict xs, JDict ys =>
      (fix all2 (xs ys : list (string * json)) {struct xs} : bool :=
         match xs, ys with
         | [], [] => true
         | (k, x) :: xs', (k', y) :: ys' =>
             String.eqb k k' && json_eqb x y && all2 xs' ys'
         | _, _ => false
         end) xs ys
  | _, _ => false
  end.

(** [d.get(key, default)] on a parsed JSON object. *)
Fixpoint dict_get (d : list (string * json)) (key : string) (default : json)
  : json :=
  match d with
  | [] => default
  | (k, v) :: rest => if String.eqb k key then v else dict_get rest key default
  end.

(** The persisted unit: the keys [image], [filename] and [annotations] of a
    document of the [images] collection. *)
Module Doc.
Record t : Type := mk
  { image : list byte;
    filename : string;
    annotations : json }.
End Doc.

(* ================================================================= *)
(** ** What the store can hold (BSON) *)

Module Bson.

Local Open Scope N_scope.

(** The largest document the server stores, [maxBsonObjectSize]. *)
Definition MAX_BSON_SIZE : N := 16777216.

(** The deepest nesting of documents and arrays the server stores. *)
Definition MAX_DEPTH : N := 100.

(** A key or an array index as a C string: its bytes and a final zero. *)
Definition cstring_size (s : string) : N := N.of_nat (String.length s) + 1.

Definition index_size (i : N) : N :=
  N.of_nat (Decimal.nb_digits (N.to_uint i)) + 1.

Definition in_int32 (z : Z) : bool :=
  ((- 2147483648 <=? z) && (z <=? 2147483647))%Z.

Definition in_int64 (z : Z) : bool :=
  ((- 9223372036854775808 <=? z) && (z <=? 9223372036854775807))%Z.

(** The encoded size of a value, without its type byte and key: an
    integer takes 4 or 8 bytes, a float 8, a string its length, its bytes
    and a final zero; an array is a document keyed by the indices. *)
Fixpoint value_size (v : json) : N :=
  match v with
  | JNull => 0
  | JBool _ => 1
  | JInt z => if in_int32 z then 4 else 8
  | JFloat _ => 8
  | JStr s => 4 + N.of_nat (String.length s) + 1
  | JList items =>
      4 + (fix elements (i : N) (xs : list json) {struct xs} : N :=
             match xs with
             | [] => 0
             | x :: xs' =>
                 (1 + index_size i + value_size x) + elements (i + 1) xs'
             end) 0 items
      + 1
  | JDict fields =>
      4 + (fix elements (kvs : list (string * json)) {struct kvs} : N :=
             match kvs with
             | [] => 0
             | (k, x) :: kvs' =>
                 (1 + cstring_size k + value_size x) + elements kvs'
             end) fields
      + 1
  end.

(** How deep documents and arrays nest inside a value. *)
Fixpoint nesting (v : json) : N :=
  match v with
  | JList items =>
      1 + (fix deepest (xs : list json) {struct xs} : N :=
             match xs with
             | [] => 0
             | x :: xs' => N.max (nesting x) (deepest xs')
             end) items
  | JDict fields =>
      1 + (fix deepest (kvs : list (string * json)) {struct kvs} : N :=
             match kvs with
             | [] => 0
             | (_, x) :: kvs' => N.max (nesting x) (deepest kvs')
             end) fields
  | _ => 0
  end.

(** A string the encoder can write as UTF-8: one without an unpaired
    surrogate. *)
Definition text (s : string) : bool :=
  Utf8.well_formed (list_byte_of_string s).

(** What the encoder takes: every integer fits 8 bytes (or it raises
    [OverflowError]), every string and key is text ([UnicodeEncodeError])
    and no key holds a zero byte ([InvalidDocument]).  Field names are
    otherwise free, as from MongoDB 5.0. *)
Fixpoint well_formed (v : json) : bool :=
  match v with
  | JInt z => in_int64 z
  | JStr s => text s
  | JList items =>
      (fix all (xs : list json) {struct xs} : bool :=
         match xs with
         | [] => true
         | x :: xs' => well_formed x && all xs'
         end) items
  | JDict fields =>
      (fix all (kvs : list (string * json)) {struct kvs} : bool :=
         match kvs with
         | [] => true
         | (k, x) :: kvs' =>
             text k && negb (PyStr.contains Ascii.zero k)
             && well_formed x && all kvs'
         end) fields
  | _ => true
  end.

(** A value the store can hold in a field of a top-level document. *)
Definition encodable (v : json) : bool :=
  well_formed v && (1 + nesting v <=? MAX_DEPTH).

(** A value the driver can send in an update: encodable, and not larger
    than a document may be (the driver's own check is on the whole
    command, 16 KiB above that). *)
Definition sendable (v : json) : bool :=
  encodable v && (value_size v <=? MAX_BSON_SIZE).

(** The encoded size of a stored document: the length, the elements
    [_id] (an ObjectId, 12 bytes), [image] (binary: length, subtype,
    bytes), [filename] (string) and [annotations], and a final zero. *)
Definition doc_size (d : Doc.t) : N :=
  4
  + (1 + cstring_size "_id" + 12)
  + (1 + cstring_size "image" + (4 + 1 + N.of_nat (List.length (Doc.image d))))
  + (1 + cstring_size "filename"
     + (4 + N.of_nat (String.length (Doc.filename d)) + 1))
  + (1 + cstring_size "annotations" + value_size (Doc.annotations d))
  + 1.

(** A document the store takes. *)
Definition storable (d : Doc.t) : bool :=
  encodable (Doc.annotations d) && (doc_size d <=? MAX_BSON_SIZE).

End Bson.

(* ================================================================= *)
(** ** The collection (pymongo) *)

Module Collection.

Definition t : Type := list Doc.t.

Definition matches (filename : string) (d : Doc.t) : bool :=
  String.eqb (Doc.filename d) filename.

(** [find_one({'filename': filename})]: the first matching document in
    natural order, or [None]. *)
Definition find_one (filename : string) (c : t) : option Doc.t :=
  List.find (matches filename) c.

(** [insert_one(doc)]: the document is appended; [None] when the store
    refuses it (it does not encode, or exceeds the document size limit),
    and then nothing is stored. *)
Definition insert_one (d : Doc.t) (c : t) : option t :=
  if Bson.storable d then Some (c ++ [d]) else None.

(** [delete_one({'filename': filename})]: removes the first matching
    document; the result carries [deleted_count]. *)
Fixpoint delete_one (filename : string) (c : t) : N * t :=
  match c with
  | [] => (0%N, [])
  | d :: rest =>
      if matches filename d then (1%N, rest)
      else let (n, rest') := delete_one filename rest in (n, d :: rest')
  end.

(** The server applying [{'$set': {'annotations': v}}] to the first
    matching document; the result carries [matched_count] and
    [modified_count], the latter 0 when the document already holds [v]. *)
Fixpoint apply_set (filename : string) (v : json) (c : t) : (N * N) * t :=
  match c with
  | [] => ((0%N, 0%N), [])
  | d :: rest =>
      if matches filename d then
        ((1%N, if json_eqb (Doc.annotations d) v then 0%N else 1%N),
         Doc.mk (Doc.image d) (Doc.filename d) v :: rest)
      else
        let (n, rest') := apply_set filename v rest in (n, d :: rest')
  end.

(** An update that the server refuses: the resulting document would be
    larger than the size limit. *)
Definition outgrows (d : Doc.t) (v : json) : bool :=
  (Bson.MAX_BSON_SIZE <? Bson.doc_size (Doc.mk (Doc.image d) (Doc.filename d) v))%N.

(** [update_one({'filename': filename}, {'$set': {'annotations': v}})]:
    [None] when the driver cannot send [v] or the server refuses the
    resulting document; nothing is changed then. *)
Definition update_one (filename : string) (v : json) (c : t)
  : option ((N * N) * t) :=
  if Bson.sendable v then
    match find_one filename c with
    | Some d => if outgrows d v then None else Some (apply_set filename v c)
    | None => Some ((0%N, 0%N), c)
    end
  else None.

(** [find({})] *)
Definition find_all (c : t) : list Doc.t := c.

End Collection.

(* ================================================================= *)
(** ** Exceptions and the handler monad *)

Inductive exn : Type :=
| TypeError            (* subscripting [None] *)
| KeyError             (* a class index outside [names] *)
| UnicodeDecodeError   (* [bytes.decode('utf-8')] *)
| BinasciiError        (* [base64.b64decode] *)
| DetectorError        (* raised inside the model *)
| AttributeError       (* [.get] on a JSON value that is not an object *)
| StoreError.          (* the store refuses a write: [OverflowError],
                          [UnicodeEncodeError], [InvalidDocument],
                          [DocumentTooLarge] or a server write error *)

Inductive outcome (A : Type) : Type :=
| Return (a : A)
| Raise (e : exn).
Arguments Return {A} a.
Arguments Raise {A} e.

(** Pure code that may raise. *)
Definition obind {A B} (x : outcome A) (f : A -> outcome B) : outcome B :=
  match x with
  | Return a => f a
  | Raise e => Raise e
  end.

Definition of_option {A} (e : exn) (x : option A) : outcome A :=
  match x with
  | Some a => Return a
  | None => Raise e
  end.

(** A computation over the collection that may raise. *)
Definition M (A : Type) : Type := Collection.t -> outcome A * Collection.t.

Definition ret {A} (a : A) : M A := fun c => (Return a, c).

Definition bind {A B} (m : M A) (f : A -> M B) : M B :=
  fun c =>
    match m c with
    | (Return a, c') => f a c'
    | (Raise e, c') => (Raise e, c')
    end.

Definition lift {A} (x : outcome A) : M A := fun c => (x, c).

Declare Scope handler_scope.
Delimit Scope handler_scope with handler.
Notation "x <- m ;; k" := (bind m (fun x => k))
  (at level 61, m at next level, right associativity) : handler_scope.
Notation "m ;;; k" := (bind m (fun _ => k))
  (at level 61, right associativity) : handler_scope.

Module Db.
Definition find_one (filename : string) : M (option Doc.t) :=
  fun c => (Return (Collection.find_one filename c), c).
Definition insert_one (d : Doc.t) : M unit :=
  fun c =>
    match Collection.insert_one d c with
    | Some c' => (Return tt, c')
    | None => (Raise StoreError, c)
    end.
Definition delete_one (filename : string) : M N :=
  fun c => let (n, c') := Collection.delete_one filename c in (Return n, c').
Definition update_one (filename : string) (v : json) : M (N * N) :=
  fun c =>
    match Collection.update_one filename v c with
    | Some (n, c') => (Return n, c')
    | None => (Raise StoreError, c)
    end.
Definition find_all : M (list Doc.t) :=
  fun c => (Return (Collection.find_all c), c).
End Db.

(** [db_entry['image']]: subscripting [None] raises [TypeError]. *)
Definition getitem_image (db_entry : option Doc.t) : outcome (list byte) :=
  match db_entry with
  | Some d => Return (Doc.image d)
  | None => Raise TypeError
  end.

(* ================================================================= *)
(** ** Requests and responses *)

(** An uploaded file: [file.filename] and what [file.read()] returns. *)
Record FileStorage : Type :=
  { fs_filename : string;
    fs_read : list byte }.

(** One detected object, as emitted by the prediction handler. *)
Record annotation : Type :=
  { label : string;
    confidence : Q;
    bbox : list Q }.

(** A document as it leaves the service, its image as text. *)
Record entry : Type :=
  { entry_filename : string;
    entry_annotations : json;
    entry_image : string }.

Inductive body : Type :=
| Message (message : string)
| Entry (e : entry)
| Entries (es : list entry)
| Predictions (filtered_predictions : list (list annotation))
| InternalServerError (e : exn)
| HTTPException (name : string).

(** The body of a [PUT] request as [request.json] finds it. *)
Inductive request_body : Type :=
| NotJson                 (* the content type is not JSON *)
| Malformed               (* JSON content that does not parse *)
| Parsed (data : json).   (* the parsed value *)

(** [data.get(key, default)]: only an object has [get]. *)
Definition py_get (data : json) (key : string) (default : json)
  : outcome json :=
  match data with
  | JDict fields => Return (dict_get fields key default)
  | _ => Raise AttributeError
  end.

(** What a handler returns: the body and the status code. *)
Definition response : Type := body * Z.

Local Open Scope handler_scope.

(* ================================================================= *)
(** ** The handlers that only need the collection *)

(** [POST /upload-image]: [files_image] is [request.files['image']] when
    the key is present, [form_annotations] is
    [request.form.get('annotations')]. *)
Definition upload_image (files_image : option FileStorage)
    (form_annotations : option string) : M response :=
  match files_image with
  | None => ret (Message "Image not in request", 400%Z)
  | Some file =>
      if PyStr.truthy (fs_filename file) && allowed_file (fs_filename file) then
        existing <- Db.find_one (fs_filename file) ;;
        match existing with
        | Some _ => ret (Message "File already exists", 400%Z)
        | None =>
            let image_data := fs_read file in
            if (N.of_nat (List.length image_data) <? 16777216)%N then
              let encoded_image_data := Base64.b64encode image_data in
              let filename := fs_filename file in
              let annotations :=
                match form_annotations with
                | Some s => JStr s
                | None => JNull
                end in
              let db_entry := Doc.mk encoded_image_data filename annotations in
              Db.insert_one db_entry ;;;
              ret (Message "File uploaded successfully", 200%Z)
            else ret (Message "File too big", 400%Z)
        end
      else ret (Message "Invalid request", 400%Z)
  end.

(** [DELETE /delete-image/<filename>] *)
Definition delete_image (filename : string) : M response :=
  deleted_count <- Db.delete_one filename ;;
  if (deleted_count =? 1)%N then
    ret (Message "File deleted successfully", 200%Z)
  else ret (Message "File not found in the database", 404%Z).

(** [GET /get-image/<filename>]: the image field is read before the entry
    is tested. *)
Definition get_image (filename : string) : M response :=
  db_entry <- Db.find_one filename ;;
  image_bytes <- lift (getitem_image db_entry) ;;
  image_data_base64 <- lift (of_option UnicodeDecodeError (Utf8.decode image_bytes)) ;;
  match db_entry with
  | Some d =>
      ret (Entry {| entry_filename := Doc.filename d;
                    entry_annotations := Doc.annotations d;
                    entry_image := image_data_base64 |}, 200%Z)
  | None => ret (Message "File not found", 404%Z)
  end.

(** The loop of [get_all] over the fetched documents. *)
Fixpoint decode_images (all_documents : list Doc.t) : outcome (list entry) :=
  match all_documents with
  | [] => Return []
  | doc :: rest =>
      obind (of_option UnicodeDecodeError (Utf8.decode (Doc.image doc)))
        (fun text =>
           obind (decode_images rest)
             (fun es =>
                Return ({| entry_filename := Doc.filename doc;
                           entry_annotations := Doc.annotations doc;
                           entry_image := text |} :: es)))
  end.

(** [GET /get-all] *)
Definition get_all : M response :=
  all_documents <- Db.find_all ;;
  es <- lift (decode_images all_documents) ;;
  ret (Entries es, 200%Z).

(** [PUT /edit/<filename>].  [request.json] aborts the request when the
    body is not JSON (415, from Flask 2.1) or does not parse (400): Flask
    answers with that status, which is modelled as the handler returning
    it. *)
Definition edit_annotations (filename : string) (body : request_body)
  : M response :=
  match body with
  | NotJson => ret (HTTPException "Unsupported Media Type", 415%Z)
  | Malformed => ret (HTTPException "Bad Request", 400%Z)
  | Parsed request_json =>
      new_annotations <- lift (py_get request_json "annotations" (JStr "")) ;;
      result <- Db.update_one filename new_annotations ;;
      let modified_count := snd result in
      if (modified_count =? 1)%N then
        ret (Message "Annotations updated successfully", 200%Z)
      else ret (Message "File not found or annotations not updated", 404%Z)
  end.

(* ================================================================= *)
(** ** Detector output and its normalisation *)

(** One row of a prediction tensor: the box, the score and the class, all
    stored as floats (finite floats are rationals, and compare as such). *)
Record raw : Type :=
  { x1 : Q; y1 : Q; x2 : Q; y2 : Q;
    score : Q;
    cls : Q }.

(** The value of [model(img)]: one tensor per image ([result.pred]) and the
    class vocabulary ([result.names], a dictionary from index to name). *)
Record detections : Type :=
  { pred : list (list raw);
    names : Z -> option string }.

Module Tensor.

(** [t.int()]: truncation towards zero. *)
Definition int (q : Q) : Z := Z.quot (Qnum q) (Zpos (Qden q)).

(** [a > b] on scores. *)
Definition gt (a b : Q) : bool :=
  (Qnum b * Zpos (Qden a) <? Qnum a * Zpos (Qden b))%Z.

(** [t[mask]]: the rows whose mask bit is set, in order. *)
Fixpoint select {A} (t : list A) (mask : list bool) : list A :=
  match t, mask with
  | x :: t', m :: mask' =>
      if m then x :: select t' mask' else select t' mask'
  | _, _ => []
  end.

(** [zip(a, b, c)] *)
Fixpoint zip3 {A B C} (a : list A) (b : list B) (c : list C)
  : list (A * B * C) :=
  match a, b, c with
  | x :: a', y :: b', z :: c' => (x, y, z) :: zip3 a' b' c'
  | _, _, _ => []
  end.

End Tensor.

(** The body of the inner loop: one annotation; [result.names[int(label)]]
    raises [KeyError] on an index outside the vocabulary. *)
Definition make_annotation (result_names : Z -> option string)
    (row : Z * Q * (Q * Q * Q * Q)) : outcome annotation :=
  let '(label, score, (x1, y1, x2, y2)) := row in
  obind (of_option KeyError (result_names label))
    (fun name =>
       Return {| label := name;
                 confidence := score;
                 bbox := [x1; y1; x2; y2] |}).

(** The inner loop, appending to [annotations]. *)
Fixpoint make_annotations (result_names : Z -> option string)
    (rows : list (Z * Q * (Q * Q * Q * Q))) : outcome (list annotation) :=
  match rows with
  | [] => Return []
  | row :: rest =>
      obind (make_annotation result_names row)
        (fun annotation =>
           obind (make_annotations result_names rest)
             (fun annotations => Return (annotation :: annotations)))
  end.

(** One iteration of the outer loop, for one tensor [pred]. *)
Definition filter_pred (result_names : Z -> option string) (pred : list raw)
  : outcome (list annotation) :=
  let labels := map (fun r => Tensor.int (cls r)) pred in
  let scores := map score pred in
  let boxes := map (fun r => (x1 r, y1 r, x2 r, y2 r)) pred in
  let mask := map (fun s => Tensor.gt s (1 # 2)) scores in
  let filtered_labels := Tensor.select labels mask in
  let filtered_scores := Tensor.select scores mask in
  let filtered_boxes := Tensor.select boxes mask in
  make_annotations result_names
    (Tensor.zip3 filtered_labels filtered_scores filtered_boxes).

(** The outer loop over [result.pred], appending to
    [filtered_predictions]. *)
Fixpoint filter_preds (result_names : Z -> option string)
    (preds : list (list raw)) : outcome (list (list annotation)) :=
  match preds with
  | [] => Return []
  | pred :: rest =>
      obind (filter_pred result_names pred)
        (fun annotations =>
           obind (filter_preds result_names rest)
             (fun filtered_predictions =>
                Return (annotations :: filtered_predictions)))
  end.

(** [bool(b)] of a bytes value. *)
Definition bytes_truthy (b : list byte) : bool :=
  match b with [] => false | _ => true end.

(** The requests of the service. *)
Inductive request : Type :=
| POST_upload_image (files_image : option FileStorage)
    (form_annotations : option string)
| DELETE_delete_image (filename : string)
| GET_get_image (filename : string)
| GET_get_all
| PUT_edit (filename : string) (body : request_body)
| GET_get_predictions (filename : string).

Section Service.

(** The external collaborators of the prediction handler. *)
Variable pixels : Type.
(** [cv2.imdecode(nparr, cv2.IMREAD_COLOR)]: [None] when the bytes are
    not a readable image. *)
Variable imdecode : list byte -> option pixels.
(** [model(img)], which may raise. *)
Variable model : option pixels -> outcome detections.

(** [GET /get-predictions/<filename>]: the image field is read and
    decoded before the entry is tested. *)
Definition get_predictions (filename : string) : M response :=
  db_entry <- Db.find_one filename ;;
  image_field <- lift (getitem_image db_entry) ;;
  image_bytes <- lift (of_option BinasciiError (Base64.b64decode image_field)) ;;
  if negb (match db_entry with Some _ => true | None => false end)
     || negb (bytes_truthy image_bytes)
  then ret (Message "File not found", 404%Z)
  else
    let nparr := image_bytes in
    let img := imdecode nparr in
    result <- lift (model img) ;;
    filtered_predictions <- lift (filter_preds (names result) (pred result)) ;;
    ret (Predictions filtered_predictions, 200%Z).

(** Routing. *)
Definition dispatch (r : request) : M response :=
  match r with
  | POST_upload_image files_image form_annotations =>
      upload_image files_image form_annotations
  | DELETE_delete_image filename => delete_image filename
  | GET_get_image filename => get_image filename
  | GET_get_all => get_all
  | PUT_edit filename body => edit_annotations filename body
  | GET_get_predictions filename => get_predictions filename
  end.

(** One request against the collection; an exception that escapes the
    handler becomes a 500 response. *)
Definition serve (c : Collection.t) (r : request) : response * Collection.t :=
  match dispatch r c with
  | (Return resp, c') => (resp, c')
  | (Raise e, c') => ((InternalServerError e, 500%Z), c')
  end.

(** A sequence of requests, one after the other. *)
Fixpoint run (c : Collection.t) (rs : list request) : Collection.t :=
  match rs with
  | [] => c
  | r :: rest => run (snd (serve c r)) rest
  end.

End Service.

Arguments get_predictions {pixels} imdecode model filename.
Arguments dispatch {pixels} imdecode model r.
Arguments serve {pixels} imdecode model c r.
Arguments run {pixels} imdecode model c rs.

(* ================================================================= *)
(** ** The error taxonomy of the specification *)

Inductive failure : Type :=
| ValidationError
| Conflict
| PayloadTooLarge
| NotFound
| DecodeError
| UnhandledFault.

(** How a response of the service reads in the taxonomy: the three client
    errors share status 400 and differ by message; an unprocessable-input
    status would be a [DecodeError]. *)
Definition classify (r : response) : option failure :=
  match r with
  | (Message m, 400%Z) =>
      if String.eqb m "File already exists" then Some Conflict
      else if String.eqb m "File too big" then Some PayloadTooLarge
      else Some ValidationError
  | (_, 404%Z) => Some NotFound
  | (_, 422%Z) => Some DecodeError
  | (_, 500%Z) => Some UnhandledFault
  | _ => None
  end.

(** The filter of the specification: keep what is strictly above one half,
    then name the class. *)
Definition spec_filter (result_names : Z -> option string) (group : list raw)
  : list (option annotation) :=
  map (fun r =>
         option_map
           (fun name => {| label := name;
                           confidence := score r;
                           bbox := [x1 r; y1 r; x2 r; y2 r] |})
           (result_names (Tensor.int (cls r))))
      (filter (fun r => Tensor.gt (score r) (1 # 2)) group).

(** A toy decoder and detector for concrete runs: an image is readable
    when it starts with the PNG signature byte, and the detector reports
    one fixed tensor; it raises on a missing image. *)
Module Toy.

Definition imdecode (b : list byte) : option (list byte) :=
  match b with
  | x89 :: _ => Some b
  | _ => None
  end.

Definition vocabulary (i : Z) : option string :=
  match i with
  | 0%Z => Some "person"
  | 1%Z => Some "bicycle"
  | 16%Z => Some "dog"
  | _ => None
  end.

Definition row (s : Q) (c : Z) : raw :=
  {| x1 := 0; y1 := 0; x2 := 10; y2 := 20; score := s; cls := inject_Z c |}.

Definition group : list raw :=
  [row (9 # 10) 0; row (4 # 10) 1; row (1 # 2) 16; row (51 # 100) 16].

Definition model (img : option (list byte)) : outcome detections :=
  match img with
  | Some _ => Return {| pred := [group]; names := vocabulary |}
  | None => Raise DetectorError
  end.

End Toy.

(* ================================================================= *)
(** ** Vocabulary for the statements *)

(** The numbers below [n], for checks by enumeration. *)
Definition below (n : nat) : list N := map N.of_nat (seq 0 n).

(** The sextets of a byte pair and what the decoder rebuilds from them:
    the facts the round trip needs about two neighbouring bytes [a b]. *)
Definition sextets_ok (a b : N) : bool :=
  let s0 := N.shiftr a 2 in
  let s1 := N.lor (N.shiftl (N.land a 3) 4) (N.shiftr b 4) in
  let s1' := N.shiftl (N.land a 3) 4 in
  let t2 := N.lor (N.shiftl (N.land a 15) 2) (N.shiftr b 6) in
  let t2' := N.shiftl (N.land a 15) 2 in
  let t3 := N.land a 63 in
  ((s0 <? 64) && (s1 <? 64) && (s1' <? 64) && (t2 <? 64) && (t2' <? 64)
   && (t3 <? 64)
   && ((N.lor (N.shiftl s0 2) (N.shiftr s1 4)) mod 256 =? a)
   && ((N.lor (N.shiftl s0 2) (N.shiftr s1' 4)) mod 256 =? a)
   && (N.land s1 15 =? N.shiftr b 4)
   && ((N.lor (N.shiftl (N.shiftr a 4) 4) (N.shiftr t2 2)) mod 256 =? a)
   && ((N.lor (N.shiftl (N.shiftr a 4) 4) (N.shiftr t2' 2)) mod 256 =? a)
   && (N.land t2 3 =? N.shiftr b 6)
   && ((N.lor (N.shiftl (N.shiftr a 6) 6) t3) mod 256 =? a))%N.


(** A document is stored under the filename. *)
Definition has_record (filename : string) (c : Collection.t) : Prop :=
  In filename (map Doc.filename c).

(** Filenames are unique across the documents of the collection. *)
Definition unique_filenames (c : Collection.t) : Prop :=
  NoDup (map Doc.filename c).

(** Every stored filename passes the extension check. *)
Definition names_allowed (c : Collection.t) : Prop :=
  Forall (fun d => allowed_file (Doc.filename d) = true) c.

(** The documents stored under a filename. *)
Definition records_of (filename : string) (c : Collection.t) : list Doc.t :=
  filter (Collection.matches filename) c.

(** The document with its annotations replaced. *)
Definition set_annotations (d : Doc.t) (v : json) : Doc.t :=
  Doc.mk (Doc.image d) (Doc.filename d) v.

(** The annotations value an upload stores. *)
Definition stored_annotations (form_annotations : option string) : json :=
  match form_annotations with
  | Some s => JStr s
  | None => JNull
  end.

(** The filename a request writes under, when it writes at all. *)
Definition target (r : request) : option string :=
  match r with
  | POST_upload_image (Some file) _ => Some (fs_filename file)
  | DELETE_delete_image filename => Some filename
  | PUT_edit filename _ => Some filename
  | _ => None
  end.

(** A document as [upload_image] inserts it: an allowed filename and the
    encoding of a payload below the size limit. *)
Definition stored_by_upload (d : Doc.t) : Prop :=
  allowed_file (Doc.filename d) = true /\
  exists B, Doc.image d = Base64.b64encode B /\
            (N.of_nat (List.length B) < 16777216)%N.

(** The entry a listing or a fetch makes of a document. *)
Definition entry_of (d : Doc.t) : entry :=
  {| entry_filename := Doc.filename d;
     entry_annotations := Doc.annotations d;
     entry_image := string_of_list_byte (Doc.image d) |}.

(** The status code of a response. *)
Definition status (r : response) : Z := snd r.

(** A row that passes the confidence filter and whose class index is not
    in the vocabulary. *)
Definition unnamed_survivor (result_names : Z -> option string) (r : raw) : Prop :=
  (1 # 2 < score r)%Q /\ result_names (Tensor.int (cls r)) = None.

(* ================================================================= *)
(** * Properties *)

(** ** Strings and the extension check *)

Lemma contains_append (c : ascii) (a b : string) :
  PyStr.contains c (a ++ b)%string = PyStr.contains c a || PyStr.contains c b.
Proof.
  induction a as [|x a IH]; simpl; [reflexivity|].
  rewrite IH. now rewrite orb_assoc.
Qed.

(** The two shapes of [rsplit1]: no separator and the string itself, or a
    split at a separator with none after it. *)
Lemma rsplit1_cases (sep : ascii) (s : string) :
  (PyStr.contains sep s = false /\ PyStr.rsplit1 sep s = [s]) \/
  (exists a b,
      s = (a ++ String sep b)%string /\ PyStr.contains sep b = false /\
      PyStr.rsplit1 sep s = [a; b]).
Proof.
  induction s as [|x s IH]; simpl.
  - left. split; reflexivity.
  - destruct IH as [[Hno Hr] | (a & b & Hs & Hno & Hr)].
    + rewrite Hr, Hno. destruct (Ascii.eqb_spec x sep) as [->|Hx].
      * right. exists EmptyString, s. repeat split; assumption.
      * left. split; reflexivity.
    + rewrite Hr. right. exists (String x a), b. subst s.
      repeat split; assumption.
Qed.

Lemma rsplit1_no_sep (sep : ascii) (s : string) :
  PyStr.contains sep s = false -> PyStr.rsplit1 sep s = [s].
Proof.
  intros Hno. destruct (rsplit1_cases sep s) as [[_ Hr] | (a & b & Hs & _ & _)].
  - exact Hr.
  - subst s. rewrite contains_append in Hno. simpl in Hno.
    rewrite Ascii.eqb_refl, orb_true_r in Hno. discriminate.
Qed.

Lemma rsplit1_last (sep : ascii) (a b : string) :
  PyStr.contains sep b = false ->
  PyStr.rsplit1 sep (a ++ String sep b)%string = [a; b].
Proof.
  intros Hno. induction a as [|x a IH]; simpl.
  - rewrite (rsplit1_no_sep sep b Hno), Ascii.eqb_refl. reflexivity.
  - rewrite IH. reflexivity.
Qed.

Lemma mem_In (x : string) (xs : list string) :
  PyStr.mem x xs = true <-> In x xs.
Proof.
  unfold PyStr.mem. rewrite existsb_exists. split.
  - intros (y & Hy & He). apply String.eqb_eq in He. now subst.
  - intros H. exists x. split; [assumption | apply String.eqb_refl].
Qed.

(** [allowed_file] against the wording: a dot, and an allowed extension
    after the last one. *)
Lemma allowed_file_iff (filename : string) :
  allowed_file filename = true <->
  exists stem ext,
    filename = (stem ++ String "." ext)%string /\
    PyStr.contains "." ext = false /\
    In (PyStr.lower ext) ALLOWED_EXTENSIONS.
Proof.
  unfold allowed_file. split.
  - destruct (rsplit1_cases "." filename)
      as [[Hno Hr] | (a & b & Hs & Hno & Hr)].
    + rewrite Hno. discriminate.
    + rewrite Hr. cbn [nth_error].
      destruct (PyStr.contains "." filename); [|discriminate].
      intros H. exists a, b. repeat split; try assumption.
      now apply mem_In.
  - intros (stem & ext & -> & Hno & Hin).
    rewrite contains_append. cbn [PyStr.contains].
    rewrite Ascii.eqb_refl, orb_true_r.
    rewrite (rsplit1_last "." stem ext Hno). cbn [nth_error].
    now apply mem_In.
Qed.

Lemma allowed_file_truthy (filename : string) :
  allowed_file filename = true -> PyStr.truthy filename = true.
Proof. destruct filename; [discriminate | reflexivity]. Qed.

(** ** The collection *)

Lemma matches_true (filename : string) (d : Doc.t) :
  Collection.matches filename d = true <-> Doc.filename d = filename.
Proof. unfold Collection.matches. apply String.eqb_eq. Qed.

Lemma matches_false (filename : string) (d : Doc.t) :
  Collection.matches filename d = false <-> Doc.filename d <> filename.
Proof. unfold Collection.matches. apply String.eqb_neq. Qed.

Lemma find_one_None (filename : string) (c : Collection.t) :
  Collection.find_one filename c = None <-> ~ has_record filename c.
Proof.
  unfold Collection.find_one, has_record.
  induction c as [|d c IH]; simpl.
  - split; [intros _ [] | reflexivity].
  - destruct (Collection.matches filename d) eqn:E.
    + apply matches_true in E. split; [discriminate|]. intros H. elim H. now left.
    + apply matches_false in E. rewrite IH. split.
      * intros H [H1|H1]; [now apply E | now apply H].
      * intros H H1. apply H. now right.
Qed.

Lemma find_one_Some (filename : string) (c : Collection.t) (d : Doc.t) :
  Collection.find_one filename c = Some d ->
  In d c /\ Doc.filename d = filename.
Proof.
  unfold Collection.find_one. intros H. apply find_some in H.
  destruct H as [H1 H2]. split; [assumption | now apply matches_true].
Qed.

Lemma has_record_find_one (filename : string) (c : Collection.t) :
  has_record filename c <-> exists d, Collection.find_one filename c = Some d.
Proof.
  destruct (Collection.find_one filename c) as [d|] eqn:E.
  - split; [intros _; now exists d|]. intros _.
    destruct (find_one_Some _ _ _ E) as [Hin <-]. unfold has_record.
    now apply in_map.
  - apply find_one_None in E. split; [intros H; now elim E|].
    intros [d Hd]. discriminate.
Qed.

Lemma find_one_inserted (filename : string) (c : Collection.t) (d : Doc.t) :
  Collection.find_one filename c = None ->
  Doc.filename d = filename ->
  Collection.find_one filename (c ++ [d]) = Some d.
Proof.
  unfold Collection.find_one. intros Hnone Hd.
  induction c as [|x c IH]; simpl in *.
  - apply matches_true in Hd. now rewrite Hd.
  - destruct (Collection.matches filename x); [discriminate|]. now apply IH.
Qed.

(** [delete_one] takes out the first document stored under the name. *)
Lemma delete_one_present (filename : string) (c : Collection.t) :
  has_record filename c ->
  exists before d after,
    c = before ++ d :: after /\
    Doc.filename d = filename /\
    ~ has_record filename before /\
    Collection.delete_one filename c = (1%N, before ++ after).
Proof.
  unfold has_record. induction c as [|x c IH]; simpl; [intros []|].
  intros H. destruct (Collection.matches filename x) eqn:E.
  - exists [], x, c. apply matches_true in E. simpl. repeat split; auto.
  - apply matches_false in E. destruct H as [H|H]; [now elim E|].
    destruct (IH H) as (before & d & after & -> & Hd & Hb & Hdel).
    exists (x :: before), d, after. rewrite Hdel. simpl.
    repeat split; auto. intros [H1|H1]; [now apply E | now apply Hb].
Qed.

Lemma delete_one_absent (filename : string) (c : Collection.t) :
  ~ has_record filename c ->
  Collection.delete_one filename c = (0%N, c).
Proof.
  unfold has_record. induction c as [|x c IH]; simpl; [reflexivity|].
  intros H. destruct (Collection.matches filename x) eqn:E.
  - apply matches_true in E. elim H. now left.
  - rewrite IH; [reflexivity|]. intros H1. apply H. now right.
Qed.

(** ** Equality of JSON values *)

Lemma float_eqb_eq (x y : spec_float) : float_eqb x y = true <-> x = y.
Proof.
  destruct x as [s | s | | s m e], y as [s' | s' | | s' m' e']; simpl;
    try (split; [discriminate | intros H; discriminate H]).
  - rewrite Bool.eqb_true_iff. split; [now intros -> | now intros [= ->]].
  - rewrite Bool.eqb_true_iff. split; [now intros -> | now intros [= ->]].
  - split; reflexivity.
  - rewrite !andb_true_iff, Bool.eqb_true_iff, Pos.eqb_eq, Z.eqb_eq.
    split; [intros [[-> ->] ->]; reflexivity
           | intros [= -> -> ->]; repeat split].
Qed.

Lemma json_nested_ind (P : json -> Prop) :
  P JNull ->
  (forall b, P (JBool b)) ->
  (forall z, P (JInt z)) ->
  (forall f, P (JFloat f)) ->
  (forall s, P (JStr s)) ->
  (forall items, Forall P items -> P (JList items)) ->
  (forall fields, Forall (fun kv => P (snd kv)) fields -> P (JDict fields)) ->
  forall j, P j.
Proof.
  intros HNull HBool HInt HFloat HStr HList HDict.
  fix IH 1. intros [ | b | z | f | s | items | fields ].
  - exact HNull.
  - apply HBool.
  - apply HInt.
  - apply HFloat.
  - apply HStr.
  - apply HList. induction items as [|x items IHitems]; constructor.
    + apply IH.
    + exact IHitems.
  - apply HDict. induction fields as [|[k x] fields IHfields]; constructor.
    + apply IH.
    + exact IHfields.
Qed.

Lemma json_eqb_eq (a b : json) : json_eqb a b = true <-> a = b.
Proof.
  revert b.
  induction a as [ | x | x | x | x | xs IH | xs IH ] using json_nested_ind;
    intros [ | y | y | y | y | ys | ys ]; cbn [json_eqb];
    try (split; [discriminate | intros H; discriminate H]).
  - split; reflexivity.
  - rewrite Bool.eqb_true_iff. split; [now intros -> | now intros [= ->]].
  - rewrite Z.eqb_eq. split; [now intros -> | now intros [= ->]].
  - rewrite float_eqb_eq. split; [now intros -> | now intros [= ->]].
  - rewrite String.eqb_eq. split; [now intros -> | now intros [= ->]].
  - revert ys. induction IH as [|x xs Hx _ IHxs]; intros [|y ys];
      try (split; [discriminate | intros H; discriminate H]).
    + split; reflexivity.
    + rewrite andb_true_iff, Hx, IHxs.
      split; [intros [-> [= ->]]; reflexivity | intros [= -> ->]; split; reflexivity].
  - revert ys. induction IH as [|[k x] xs Hx _ IHxs]; intros [|[k' y] ys];
      try (split; [discriminate | intros H; discriminate H]).
    + split; reflexivity.
    + simpl in Hx. rewrite !andb_true_iff, String.eqb_eq, Hx, IHxs.
      split; [intros [[-> ->] [= ->]]; reflexivity
             | intros [= -> -> ->]; repeat split; reflexivity].
Qed.

Lemma json_eqb_neq (a b : json) : json_eqb a b = false <-> a <> b.
Proof.
  rewrite <- json_eqb_eq. destruct (json_eqb a b); split; congruence.
Qed.

(** ** [update_one] *)

Lemma update_one_present (filename : string) (v : json) (c : Collection.t) :
  has_record filename c ->
  exists before d after,
    c = before ++ d :: after /\
    Doc.filename d = filename /\
    ~ has_record filename before /\
    Collection.find_one filename c = Some d /\
    Collection.apply_set filename v c =
      ((1%N, if json_eqb (Doc.annotations d) v then 0%N else 1%N),
       before ++ set_annotations d v :: after).
Proof.
  unfold has_record, Collection.find_one.
  induction c as [|x c IH]; simpl; [intros []|].
  intros H. destruct (Collection.matches filename x) eqn:E.
  - exists [], x, c. apply matches_true in E. simpl. repeat split; auto.
  - apply matches_false in E. destruct H as [H|H]; [now elim E|].
    destruct (IH H) as (before & d & after & -> & Hd & Hb & Hf & Hup).
    exists (x :: before), d, after. rewrite Hup. simpl.
    repeat split; auto. intros [H1|H1]; [now apply E | now apply Hb].
Qed.

Lemma update_one_absent (filename : string) (v : json) (c : Collection.t) :
  ~ has_record filename c ->
  Collection.apply_set filename v c = ((0%N, 0%N), c).
Proof.
  unfold has_record. induction c as [|x c IH]; simpl; [reflexivity|].
  intros H. destruct (Collection.matches filename x) eqn:E.
  - apply matches_true in E. elim H. now left.
  - rewrite IH; [reflexivity|]. intros H1. apply H. now right.
Qed.

Lemma update_one_filenames (filename : string) (v : json) (c : Collection.t) :
  map Doc.filename (snd (Collection.apply_set filename v c))
  = map Doc.filename c.
Proof.
  induction c as [|x c IH]; simpl; [reflexivity|].
  destruct (Collection.matches filename x); simpl; [reflexivity|].
  destruct (Collection.apply_set filename v c) as [n c']. simpl in *.
  now rewrite IH.
Qed.

Lemma has_record_dec (filename : string) (c : Collection.t) :
  {has_record filename c} + {~ has_record filename c}.
Proof. apply in_dec, string_dec. Defined.

Lemma find_one_first (filename : string) (before after : Collection.t)
    (d : Doc.t) :
  ~ has_record filename before ->
  Doc.filename d = filename ->
  Collection.find_one filename (before ++ d :: after) = Some d.
Proof.
  unfold has_record, Collection.find_one. intros Hb Hd.
  induction before as [|x before IH]; simpl in *.
  - apply matches_true in Hd. now rewrite Hd.
  - destruct (Collection.matches filename x) eqn:E.
    + apply matches_true in E. elim Hb. now left.
    + apply IH. intros H. apply Hb. now right.
Qed.

Lemma records_of_unique (filename : string) (c : Collection.t) :
  unique_filenames c -> has_record filename c ->
  List.length (records_of filename c) = 1%nat.
Proof.
  unfold unique_filenames, has_record, records_of.
  induction c as [|x c IH]; simpl; [intros _ []|].
  intros Hnd Hin. inversion Hnd as [|? ? Hx Hc]; subst.
  destruct (Collection.matches filename x) eqn:E.
  - apply matches_true in E. simpl. f_equal.
    rewrite <- E in *. clear IH Hin Hnd Hc.
    induction c as [|y c IHc]; simpl; [reflexivity|].
    destruct (Collection.matches (Doc.filename x) y) eqn:Ey.
    + apply matches_true in Ey. elim Hx. now left.
    + apply IHc. intros H. apply Hx. now right.
  - apply matches_false in E. destruct Hin as [Hin|Hin]; [now elim E|].
    now apply IH.
Qed.

Lemma records_of_absent (filename : string) (c : Collection.t) :
  ~ has_record filename c -> records_of filename c = [].
Proof.
  unfold has_record, records_of. induction c as [|x c IH]; simpl; [reflexivity|].
  intros H. destruct (Collection.matches filename x) eqn:E.
  - apply matches_true in E. elim H. now left.
  - apply IH. intros H1. apply H. now right.
Qed.

(** ** What the store takes *)

(** The annotations of an upload are encodable when the form field is
    text, which it is as the framework delivers it. *)
Lemma stored_annotations_encodable (form_annotations : option string) :
  Bson.encodable (stored_annotations form_annotations)
  = match form_annotations with
    | Some s => Bson.text s
    | None => true
    end.
Proof.
  destruct form_annotations as [s|]; [|reflexivity].
  unfold Bson.encodable. cbn. now rewrite andb_true_r.
Qed.

(** A document is taken when its annotations are encodable and it is
    within the size limit, and refused when it is beyond it. *)
Lemma storable_fits (d : Doc.t) :
  Bson.encodable (Doc.annotations d) = true ->
  (Bson.doc_size d <= 16777216)%N ->
  Bson.storable d = true.
Proof.
  intros He Hs. unfold Bson.storable. rewrite He. cbn [andb].
  now apply N.leb_le.
Qed.

Lemma storable_uploaded (image : list byte) (filename : string)
    (annotations : json) :
  Bson.encodable annotations = true ->
  (Bson.doc_size (Doc.mk image filename annotations) <= 16777216)%N ->
  Bson.storable (Doc.mk image filename annotations) = true.
Proof. intros He Hs. now apply storable_fits. Qed.

Lemma storable_too_large (d : Doc.t) :
  (16777216 < Bson.doc_size d)%N -> Bson.storable d = false.
Proof.
  intros H. unfold Bson.storable. apply andb_false_iff. right.
  now apply N.leb_gt.
Qed.

Lemma storable_inv (d : Doc.t) :
  Bson.storable d = true ->
  Bson.encodable (Doc.annotations d) = true /\
  (Bson.doc_size d <= 16777216)%N.
Proof.
  unfold Bson.storable. intros H. apply andb_true_iff in H.
  destruct H as [He Hs]. split; [exact He | now apply N.leb_le].
Qed.

Lemma not_storable_inv (d : Doc.t) :
  Bson.storable d = false ->
  Bson.encodable (Doc.annotations d) = false \/
  (16777216 < Bson.doc_size d)%N.
Proof.
  unfold Bson.storable. intros H. apply andb_false_iff in H.
  destruct H as [He|Hs]; [now left | right; now apply N.leb_gt].
Qed.

(** The size of a document is that of its image, its filename and its
    annotations, and 62 bytes of structure. *)
Lemma doc_size_sum (d : Doc.t) :
  Bson.doc_size d
  = (N.of_nat (List.length (Doc.image d))
     + N.of_nat (String.length (Doc.filename d))
     + Bson.value_size (Doc.annotations d) + 62)%N.
Proof. unfold Bson.doc_size, Bson.cstring_size. cbn [String.length]. lia. Qed.



Lemma update_one_present_sendable (filename : string) (v : json)
    (c : Collection.t) (d : Doc.t) :
  Bson.sendable v = true -> Collection.find_one filename c = Some d ->
  Collection.update_one filename v c =
  if Collection.outgrows d v then None
  else Some (Collection.apply_set filename v c).
Proof. unfold Collection.update_one. now intros -> ->. Qed.

(** An update that would take the record beyond the size limit is
    refused, whatever the value. *)
Lemma update_one_outgrown (filename : string) (v : json) (c : Collection.t)
    (d : Doc.t) :
  Collection.find_one filename c = Some d ->
  (Bson.MAX_BSON_SIZE < Bson.doc_size (set_annotations d v))%N ->
  Collection.update_one filename v c = None.
Proof.
  intros Hf Hbig. unfold Collection.update_one. rewrite Hf.
  destruct (Bson.sendable v); [|reflexivity].
  unfold Collection.outgrows. fold (set_annotations d v).
  apply N.ltb_lt in Hbig. now rewrite Hbig.
Qed.

Lemma fits_not_outgrows (d : Doc.t) (v : json) :
  (Bson.doc_size (set_annotations d v) <= Bson.MAX_BSON_SIZE)%N ->
  Collection.outgrows d v = false.
Proof.
  intros H. unfold Collection.outgrows.
  fold (set_annotations d v). apply N.ltb_ge, H.
Qed.

(** An update never changes the filenames, and changes nothing when it is
    refused. *)
Lemma update_one_shape (filename : string) (v : json) (c : Collection.t) :
  match Collection.update_one filename v c with
  | None => True
  | Some (n, c') =>
      (~ has_record filename c /\ n = (0%N, 0%N) /\ c' = c) \/
      (exists before d after,
          c = before ++ d :: after /\
          Doc.filename d = filename /\
          ~ has_record filename before /\
          Collection.find_one filename c = Some d /\
          Collection.outgrows d v = false /\
          n = (1%N, if json_eqb (Doc.annotations d) v then 0%N else 1%N) /\
          c' = before ++ set_annotations d v :: after)
  end.
Proof.
  unfold Collection.update_one.
  destruct (Bson.sendable v); [|exact I].
  destruct (has_record_dec filename c) as [H|H].
  - destruct (update_one_present filename v c H)
      as (before & d & after & Hc & Hd & Hb & Hf & Hup).
    rewrite Hf. destruct (Collection.outgrows d v) eqn:Eg; [exact I|].
    rewrite Hup. right. exists before, d, after. repeat split; assumption.
  - pose proof H as Hf. apply find_one_None in Hf. rewrite Hf.
    left. repeat split. exact H.
Qed.

(** ** The handlers, case by case *)

Section ServiceProperties.

Variable pixels : Type.
Variable imdecode : list byte -> option pixels.
Variable model : option pixels -> outcome detections.

Lemma serve_upload_image (c : Collection.t) (file : FileStorage)
    (form_annotations : option string) :
  serve imdecode model c (POST_upload_image (Some file) form_annotations) =
  if PyStr.truthy (fs_filename file) && allowed_file (fs_filename file) then
    match Collection.find_one (fs_filename file) c with
    | Some _ => ((Message "File already exists", 400%Z), c)
    | None =>
        if (N.of_nat (List.length (fs_read file)) <? 16777216)%N then
          let d := Doc.mk (Base64.b64encode (fs_read file)) (fs_filename file)
                     (stored_annotations form_annotations) in
          if Bson.storable d then
            ((Message "File uploaded successfully", 200%Z), c ++ [d])
          else ((InternalServerError StoreError, 500%Z), c)
        else ((Message "File too big", 400%Z), c)
    end
  else ((Message "Invalid request", 400%Z), c).
Proof.
  unfold serve, dispatch, upload_image, bind, ret, Db.find_one,
    Db.insert_one, Collection.insert_one.
  destruct (PyStr.truthy (fs_filename file) && allowed_file (fs_filename file));
    [|reflexivity].
  destruct (Collection.find_one (fs_filename file) c); [reflexivity|].
  destruct (N.of_nat (List.length (fs_read file)) <? 16777216)%N;
    [|reflexivity].
  cbv zeta. fold (stored_annotations form_annotations).
  destruct (Bson.storable _); reflexivity.
Qed.

Lemma serve_delete_image (c : Collection.t) (filename : string) :
  serve imdecode model c (DELETE_delete_image filename) =
  ((if (fst (Collection.delete_one filename c) =? 1)%N
    then (Message "File deleted successfully", 200%Z)
    else (Message "File not found in the database", 404%Z)),
   snd (Collection.delete_one filename c)).
Proof.
  unfold serve, dispatch, delete_image, bind, ret, Db.delete_one.
  destruct (Collection.delete_one filename c) as [n c']. simpl.
  destruct (n =? 1)%N; reflexivity.
Qed.

Lemma serve_get_image (c : Collection.t) (filename : string) :
  serve imdecode model c (GET_get_image filename) =
  match Collection.find_one filename c with
  | None => ((InternalServerError TypeError, 500%Z), c)
  | Some d =>
      match Utf8.decode (Doc.image d) with
      | None => ((InternalServerError UnicodeDecodeError, 500%Z), c)
      | Some text =>
          ((Entry {| entry_filename := Doc.filename d;
                     entry_annotations := Doc.annotations d;
                     entry_image := text |}, 200%Z), c)
      end
  end.
Proof.
  unfold serve, dispatch, get_image, bind, ret, lift, Db.find_one.
  destruct (Collection.find_one filename c) as [d|]; simpl; [|reflexivity].
  destruct (Utf8.decode (Doc.image d)); reflexivity.
Qed.

Lemma serve_get_all (c : Collection.t) :
  serve imdecode model c GET_get_all =
  match decode_images c with
  | Return es => ((Entries es, 200%Z), c)
  | Raise e => ((InternalServerError e, 500%Z), c)
  end.
Proof.
  unfold serve, dispatch, get_all, bind, ret, lift, Db.find_all,
    Collection.find_all.
  destruct (decode_images c); reflexivity.
Qed.

Lemma serve_edit (c : Collection.t) (filename : string)
    (body : request_body) :
  serve imdecode model c (PUT_edit filename body) =
  match body with
  | NotJson => ((HTTPException "Unsupported Media Type", 415%Z), c)
  | Malformed => ((HTTPException "Bad Request", 400%Z), c)
  | Parsed data =>
      match py_get data "annotations" (JStr "") with
      | Raise e => ((InternalServerError e, 500%Z), c)
      | Return v =>
          match Collection.update_one filename v c with
          | None => ((InternalServerError StoreError, 500%Z), c)
          | Some (n, c') =>
              ((if (snd n =? 1)%N
                then (Message "Annotations updated successfully", 200%Z)
                else (Message "File not found or annotations not updated",
                      404%Z)),
               c')
          end
      end
  end.
Proof.
  unfold serve, dispatch, edit_annotations, bind, ret, lift, Db.update_one.
  destruct body as [ | | data]; try reflexivity.
  destruct (py_get data "annotations" (JStr "")) as [v|e]; [|reflexivity].
  destruct (Collection.update_one filename v c) as [[[m n] c']|];
    [|reflexivity].
  cbn [snd]. destruct (n =? 1)%N; reflexivity.
Qed.

(** An edit with a JSON object as its body. *)
Lemma serve_edit_object (c : Collection.t) (filename : string)
    (request_json : list (string * json)) :
  serve imdecode model c (PUT_edit filename (Parsed (JDict request_json))) =
  match Collection.update_one filename
          (dict_get request_json "annotations" (JStr "")) c with
  | None => ((InternalServerError StoreError, 500%Z), c)
  | Some (n, c') =>
      ((if (snd n =? 1)%N
        then (Message "Annotations updated successfully", 200%Z)
        else (Message "File not found or annotations not updated", 404%Z)),
       c')
  end.
Proof. rewrite serve_edit. reflexivity. Qed.

(** What an edit does to the collection. *)
Lemma serve_edit_collection (c : Collection.t) (filename : string)
    (body : request_body) :
  snd (serve imdecode model c (PUT_edit filename body)) = c \/
  exists before d v after,
    c = before ++ d :: after /\
    Doc.filename d = filename /\
    snd (serve imdecode model c (PUT_edit filename body))
      = before ++ set_annotations d v :: after.
Proof.
  rewrite serve_edit. destruct body as [ | | data]; try now left.
  destruct (py_get data "annotations" (JStr "")) as [v|e]; [|now left].
  pose proof (update_one_shape filename v c) as H.
  destruct (Collection.update_one filename v c) as [[n c']|]; [|now left].
  destruct H as [(_ & _ & ->) | (before & d & after & Hc & Hd & _ & _ & _ & _ & ->)].
  - now left.
  - right. now exists before, d, v, after.
Qed.

Lemma serve_get_predictions (c : Collection.t) (filename : string) :
  serve imdecode model c (GET_get_predictions filename) =
  match Collection.find_one filename c with
  | None => ((InternalServerError TypeError, 500%Z), c)
  | Some d =>
      match Base64.b64decode (Doc.image d) with
      | None => ((InternalServerError BinasciiError, 500%Z), c)
      | Some [] => ((Message "File not found", 404%Z), c)
      | Some (b :: image_bytes) =>
          match model (imdecode (b :: image_bytes)) with
          | Raise e => ((InternalServerError e, 500%Z), c)
          | Return result =>
              match filter_preds (names result) (pred result) with
              | Raise e => ((InternalServerError e, 500%Z), c)
              | Return filtered_predictions =>
                  ((Predictions filtered_predictions, 200%Z), c)
              end
          end
      end
  end.
Proof.
  unfold serve, dispatch, get_predictions, bind, ret, lift,
    Db.find_one.
  destruct (Collection.find_one filename c) as [d|]; simpl; [|reflexivity].
  destruct (Base64.b64decode (Doc.image d)) as [[|b bs]|]; simpl;
    try reflexivity.
  destruct (model (imdecode (b :: bs))) as [result|e]; simpl; [|reflexivity].
  destruct (filter_preds (names result) (pred result)); reflexivity.
Qed.

(** Requests that read leave the collection alone. *)
Lemma serve_get_image_frame (c : Collection.t) (filename : string) :
  snd (serve imdecode model c (GET_get_image filename)) = c.
Proof.
  rewrite serve_get_image.
  destruct (Collection.find_one filename c) as [d|]; [|reflexivity].
  destruct (Utf8.decode (Doc.image d)); reflexivity.
Qed.

Lemma serve_get_all_frame (c : Collection.t) :
  snd (serve imdecode model c GET_get_all) = c.
Proof. rewrite serve_get_all. destruct (decode_images c); reflexivity. Qed.

Lemma serve_get_predictions_frame (c : Collection.t) (filename : string) :
  snd (serve imdecode model c (GET_get_predictions filename)) = c.
Proof.
  rewrite serve_get_predictions.
  destruct (Collection.find_one filename c) as [d|]; [|reflexivity].
  destruct (Base64.b64decode (Doc.image d)) as [[|b bs]|]; try reflexivity.
  destruct (model (imdecode (b :: bs))) as [result|e]; [|reflexivity].
  destruct (filter_preds (names result) (pred result)); reflexivity.
Qed.

(** What a request does to the collection. *)
Lemma serve_collection (c : Collection.t) (r : request) :
  snd (serve imdecode model c r) = c \/
  (exists d, ~ has_record (Doc.filename d) c /\
             allowed_file (Doc.filename d) = true /\
             snd (serve imdecode model c r) = c ++ [d]) \/
  (exists before d after,
      c = before ++ d :: after /\
      snd (serve imdecode model c r) = before ++ after) \/
  (exists before d v after,
      c = before ++ d :: after /\
      snd (serve imdecode model c r) = before ++ set_annotations d v :: after).
Proof.
  destruct r as [[file|] ann | filename | filename | | filename body | filename].
  - rewrite serve_upload_image.
    destruct (PyStr.truthy (fs_filename file)) eqn:Et; simpl; [|now left].
    destruct (allowed_file (fs_filename file)) eqn:Ea; [|now left].
    destruct (Collection.find_one (fs_filename file) c) eqn:Ef; [now left|].
    destruct (N.of_nat (List.length (fs_read file)) <? 16777216)%N; [|now left].
    cbv zeta. destruct (Bson.storable _); [|now left].
    right. left. eexists. simpl. repeat split; [|exact Ea].
    simpl. now apply find_one_None.
  - now left.
  - rewrite serve_delete_image. simpl.
    destruct (has_record_dec filename c) as [H|H].
    + destruct (delete_one_present filename c H)
        as (before & d & after & Hc & _ & _ & Hdel).
      rewrite Hdel. right. right. left. now exists before, d, after.
    + rewrite (delete_one_absent filename c H). now left.
  - left. apply serve_get_image_frame.
  - left. apply serve_get_all_frame.
  - destruct (serve_edit_collection c filename body)
      as [H | (before & d & v & after & Hc & _ & H)]; [now left|].
    right. right. right. now exists before, d, v, after.
  - left. apply serve_get_predictions_frame.
Qed.

Lemma serve_preserves_invariant (c : Collection.t) (r : request) :
  unique_filenames c /\ names_allowed c ->
  unique_filenames (snd (serve imdecode model c r)) /\
  names_allowed (snd (serve imdecode model c r)).
Proof.
  unfold unique_filenames, names_allowed. intros [Hu Ha].
  destruct (serve_collection c r)
    as [-> | [(d & Hd & Had & ->) | [(before & d & after & -> & ->)
                                    | (before & d & v & after & -> & ->)]]].
  - now split.
  - split.
    + rewrite map_app. apply NoDup_app; simpl; auto.
      * constructor; [intros [] | constructor].
      * intros a Hin [<-|[]]. now apply Hd.
    + apply Forall_app. split; [assumption|]. now constructor.
  - split.
    + rewrite map_app in *. simpl in Hu. now apply NoDup_remove_1 in Hu.
    + apply Forall_app in Ha. destruct Ha as [H1 H2].
      apply Forall_cons_iff in H2. apply Forall_app. now split.
  - split.
    + rewrite map_app in *. exact Hu.
    + apply Forall_app in Ha. destruct Ha as [H1 H2].
      apply Forall_cons_iff in H2. destruct H2 as [H2 H3].
      apply Forall_app. split; [assumption|]. now constructor.
Qed.

Lemma run_preserves_invariant (rs : list request) (c : Collection.t) :
  unique_filenames c /\ names_allowed c ->
  unique_filenames (run imdecode model c rs) /\
  names_allowed (run imdecode model c rs).
Proof.
  revert c. induction rs as [|r rs IH]; intros c H; simpl; [assumption|].
  apply IH. now apply serve_preserves_invariant.
Qed.

Lemma has_record_allowed (filename : string) (c : Collection.t) :
  names_allowed c -> has_record filename c -> allowed_file filename = true.
Proof.
  unfold names_allowed, has_record. intros Ha Hin.
  apply in_map_iff in Hin. destruct Hin as (d & <- & Hd).
  rewrite Forall_forall in Ha. now apply Ha.
Qed.

End ServiceProperties.

(* ================================================================= *)
(** * The claims of the specification *)

Section Claims.

Variable pixels : Type.
Variable imdecode : list byte -> option pixels.
Variable model : option pixels -> outcome detections.

(** C1, as the code behaves: for a filename with no record, the fetch
    handler and the prediction handler both subscript the missing entry
    before testing it, so each request ends in an unhandled [TypeError]
    (status 500) and not in the 404 of their [else] branch. *)
Theorem missing_filename_faults (c : Collection.t) (filename : string) :
  ~ has_record filename c ->
  serve imdecode model c (GET_get_image filename)
    = ((InternalServerError TypeError, 500%Z), c) /\
  serve imdecode model c (GET_get_predictions filename)
    = ((InternalServerError TypeError, 500%Z), c) /\
  classify (fst (serve imdecode model c (GET_get_image filename)))
    <> Some NotFound /\
  classify (fst (serve imdecode model c (GET_get_predictions filename)))
    <> Some NotFound.
Proof.
  intros H. apply find_one_None in H.
  rewrite serve_get_image, serve_get_predictions, H.
  repeat split; simpl; discriminate.
Qed.

(** C8: deleting a filename that has a record answers 200 and takes the
    (first) document stored under that name out of the collection, so
    with unique filenames no record of it remains; deleting a filename
    that has no record answers 404 and leaves the collection as it was. *)
Theorem delete_reports_removal (c : Collection.t) (filename : string) :
  (has_record filename c ->
   exists before d after,
     c = before ++ d :: after /\
     Doc.filename d = filename /\
     ~ has_record filename before /\
     serve imdecode model c (DELETE_delete_image filename)
       = ((Message "File deleted successfully", 200%Z), before ++ after) /\
     (unique_filenames c -> ~ has_record filename (before ++ after))) /\
  (~ has_record filename c ->
   serve imdecode model c (DELETE_delete_image filename)
     = ((Message "File not found in the database", 404%Z), c)).
Proof.
  split; intros H.
  - destruct (delete_one_present filename c H)
      as (before & d & after & Hc & Hd & Hb & Hdel).
    exists before, d, after. rewrite serve_delete_image, Hdel. simpl.
    repeat split; try assumption.
    unfold unique_filenames, has_record. subst c.
    rewrite !map_app. simpl. rewrite Hd. intros Hnd.
    now apply NoDup_remove_2 in Hnd.
  - rewrite serve_delete_image, (delete_one_absent filename c H). reflexivity.
Qed.

(** C9: the fetch, list and prediction requests leave the collection,
    hence every stored record, exactly as it was, whatever they answer. *)
Theorem reads_never_mutate (c : Collection.t) (filename : string) :
  snd (serve imdecode model c (GET_get_image filename)) = c /\
  snd (serve imdecode model c GET_get_all) = c /\
  snd (serve imdecode model c (GET_get_predictions filename)) = c.
Proof.
  split; [apply serve_get_image_frame|].
  split; [apply serve_get_all_frame | apply serve_get_predictions_frame].
Qed.

(** C10: the extension check accepts a filename exactly when it has a dot
    and the text after its last dot, lowercased, is one of png, jpg, jpeg
    and gif; so ["CAT.PNG"] is accepted, and an upload whose filename has
    no dot is answered with the validation error; the key itself stays
    case-sensitive: ["CAT.PNG"] does not find a record stored as
    ["cat.png"]. *)
Theorem extension_check (filename : string) :
  (allowed_file filename = true <->
   exists stem ext,
     filename = (stem ++ String "." ext)%string /\
     PyStr.contains "." ext = false /\
     In (PyStr.lower ext) ["png"; "jpg"; "jpeg"; "gif"]) /\
  allowed_file "CAT.PNG" = true /\
  (PyStr.contains "." filename = false ->
   forall c data form_annotations,
     let upload :=
       POST_upload_image
         (Some {| fs_filename := filename; fs_read := data |})
         form_annotations in
     serve imdecode model c upload = ((Message "Invalid request", 400%Z), c) /\
     classify (fst (serve imdecode model c upload)) = Some ValidationError) /\
  (forall image annotations,
     Collection.find_one "CAT.PNG" [Doc.mk image "cat.png" annotations] = None).
Proof.
  split; [apply allowed_file_iff|]. split; [reflexivity|]. split.
  - intros Hno c data form_annotations upload. unfold upload.
    rewrite serve_upload_image. simpl fs_filename.
    assert (Hrej : allowed_file filename = false).
    { unfold allowed_file. now rewrite Hno. }
    rewrite Hrej, andb_false_r. split; reflexivity.
  - reflexivity.
Qed.

(** C5: whatever requests are served, one after the other, starting from
    the empty collection, no two documents share a filename, so at most
    one record exists per filename; an upload under a filename that has a
    record is answered with the conflict, the collection is unchanged,
    and exactly one record of that filename remains. *)
Theorem filename_uniqueness (rs : list request) :
  let c := run imdecode model [] rs in
  unique_filenames c /\
  (forall filename, (List.length (records_of filename c) <= 1)%nat) /\
  (forall file form_annotations,
     has_record (fs_filename file) c ->
     let upload := POST_upload_image (Some file) form_annotations in
     serve imdecode model c upload
       = ((Message "File already exists", 400%Z), c) /\
     classify (fst (serve imdecode model c upload)) = Some Conflict /\
     List.length
       (records_of (fs_filename file) (snd (serve imdecode model c upload)))
       = 1%nat).
Proof.
  intros c.
  destruct (run_preserves_invariant pixels imdecode model rs [])
    as [Hu Ha]; [split; constructor|].
  fold c in Hu, Ha. split; [exact Hu|]. split.
  - intros filename. destruct (has_record_dec filename c) as [H|H].
    + now rewrite (records_of_unique filename c Hu H).
    + rewrite (records_of_absent filename c H). simpl. lia.
  - intros file form_annotations H upload.
    assert (Hserve : serve imdecode model c upload
                     = ((Message "File already exists", 400%Z), c)).
    { unfold upload. rewrite serve_upload_image.
      pose proof (has_record_allowed _ _ Ha H) as Hallowed.
      rewrite Hallowed, (allowed_file_truthy _ Hallowed). simpl.
      apply has_record_find_one in H. destruct H as [d ->]. reflexivity. }
    rewrite Hserve. repeat split. simpl.
    now apply records_of_unique.
Qed.


(** C7, as the code behaves: for a stored record whose payload is not a
    readable image, the prediction request has no decode error of its own
    to answer with: an empty payload is answered 404 "File not found";
    any other unreadable payload reaches the detector as a missing image,
    and when the detector raises on it the request ends as an unhandled
    fault (status 500); the collection is unchanged in both cases. *)
Theorem undecodable_payload (c : Collection.t) (filename : string)
    (d : Doc.t) (payload : list byte) :
  Collection.find_one filename c = Some d ->
  Base64.b64decode (Doc.image d) = Some payload ->
  let predict := GET_get_predictions filename in
  (payload = [] ->
   serve imdecode model c predict = ((Message "File not found", 404%Z), c)) /\
  (payload <> [] -> imdecode payload = None ->
   forall e, model None = Raise e ->
   serve imdecode model c predict = ((InternalServerError e, 500%Z), c)) /\
  classify (fst (serve imdecode model c predict)) <> Some DecodeError.
Proof.
  intros Hf Hp predict. unfold predict.
  rewrite serve_get_predictions, Hf, Hp. split; [|split].
  - now intros ->.
  - intros Hne Hdec e He. destruct payload as [|b bs]; [now elim Hne|].
    now rewrite Hdec, He.
  - destruct payload as [|b bs]; [simpl; discriminate|].
    destruct (model (imdecode (b :: bs))) as [result|e]; [|simpl; discriminate].
    destruct (filter_preds (names result) (pred result)); simpl; discriminate.
Qed.

End Claims.

(* ================================================================= *)
(** * The text encoding *)

Module Base64Facts.

Import Base64.
Local Open Scope N_scope.

Lemma list_ind3 {A} (P : list A -> Prop) :
  P [] ->
  (forall a, P [a]) ->
  (forall a b, P [a; b]) ->
  (forall a b c l, P l -> P (a :: b :: c :: l)) ->
  forall l, P l.
Proof.
  intros H0 H1 H2 H3. fix IH 1.
  intros [|a [|b [|c l]]]; [exact H0 | apply H1 | apply H2 | apply H3, IH].
Qed.

Lemma forallb_below (n : nat) (f : N -> bool) :
  forallb f (below n) = true ->
  forall v, v < N.of_nat n -> f v = true.
Proof.
  intros H v Hv. rewrite forallb_forall in H. apply H.
  unfold below. apply in_map_iff. exists (N.to_nat v).
  split; [apply N2Nat.id|]. apply in_seq. lia.
Qed.

Lemma sextet_chars (v : N) :
  v < 64 ->
  Byte.eqb (b2a v) BASE64_PAD = false /\ table_a2b_base64 (b2a v) = v.
Proof.
  intros Hv.
  assert (H : (negb (Byte.eqb (b2a v) BASE64_PAD)
               && (table_a2b_base64 (b2a v) =? v)) = true).
  { revert v Hv. apply (forallb_below 64). vm_compute. reflexivity. }
  apply andb_true_iff in H. destruct H as [H1 H2].
  apply negb_true_iff in H1. apply N.eqb_eq in H2. now split.
Qed.

Lemma sextets_ok_all (a b : N) : a < 256 -> b < 256 -> sextets_ok a b = true.
Proof.
  intros Ha Hb. revert b Hb. apply (forallb_below 256).
  revert a Ha. apply (forallb_below 256). vm_compute. reflexivity.
Qed.

Lemma byte_bound (x : byte) : Byte.to_N x < 256.
Proof. pose proof (Byte.to_N_bounded x). lia. Qed.

Lemma byte_of_N_to_N (n : N) (x : byte) :
  n mod 256 = Byte.to_N x -> byte_of_N n = x.
Proof. unfold byte_of_N. intros ->. now rewrite Byte.of_to_N. Qed.

(** One step of the decoding loop on an alphabet character. *)
Lemma a2b_loop_sextet (v : N) (rest : list byte) (quad_pos leftchar pads : N) :
  v < 64 ->
  a2b_loop (b2a v :: rest) quad_pos leftchar pads =
  match quad_pos with
  | 0 => a2b_loop rest 1 v 0
  | 1 =>
      option_map
        (cons (byte_of_N (N.lor (N.shiftl leftchar 2) (N.shiftr v 4))))
        (a2b_loop rest 2 (N.land v 15) 0)
  | 2 =>
      option_map
        (cons (byte_of_N (N.lor (N.shiftl leftchar 4) (N.shiftr v 2))))
        (a2b_loop rest 3 (N.land v 3) 0)
  | _ =>
      option_map
        (cons (byte_of_N (N.lor (N.shiftl leftchar 6) v)))
        (a2b_loop rest 0 0 0)
  end.
Proof.
  intros Hv. destruct (sextet_chars v Hv) as [Hpad Hinv].
  cbn [a2b_loop]. rewrite Hpad, Hinv.
  destruct (N.leb_spec 64 v) as [H|_]; [lia | reflexivity].
Qed.

Lemma a2b_loop_sextet0 (v : N) (rest : list byte) (leftchar pads : N) :
  v < 64 -> a2b_loop (b2a v :: rest) 0 leftchar pads = a2b_loop rest 1 v 0.
Proof. intros Hv. now rewrite a2b_loop_sextet. Qed.

Lemma a2b_loop_sextet1 (v : N) (rest : list byte) (leftchar pads : N) :
  v < 64 ->
  a2b_loop (b2a v :: rest) 1 leftchar pads =
  option_map (cons (byte_of_N (N.lor (N.shiftl leftchar 2) (N.shiftr v 4))))
    (a2b_loop rest 2 (N.land v 15) 0).
Proof. intros Hv. now rewrite a2b_loop_sextet. Qed.

Lemma a2b_loop_sextet2 (v : N) (rest : list byte) (leftchar pads : N) :
  v < 64 ->
  a2b_loop (b2a v :: rest) 2 leftchar pads =
  option_map (cons (byte_of_N (N.lor (N.shiftl leftchar 4) (N.shiftr v 2))))
    (a2b_loop rest 3 (N.land v 3) 0).
Proof. intros Hv. now rewrite a2b_loop_sextet. Qed.

Lemma a2b_loop_sextet3 (v : N) (rest : list byte) (leftchar pads : N) :
  v < 64 ->
  a2b_loop (b2a v :: rest) 3 leftchar pads =
  option_map (cons (byte_of_N (N.lor (N.shiftl leftchar 6) v)))
    (a2b_loop rest 0 0 0).
Proof. intros Hv. now rewrite a2b_loop_sextet. Qed.

(** The pad sequences that close a quad end the input. *)
Lemma a2b_loop_pad2 (rest : list byte) (leftchar : N) :
  a2b_loop (BASE64_PAD :: BASE64_PAD :: rest) 2 leftchar 0 = Some [].
Proof. reflexivity. Qed.

Lemma a2b_loop_pad3 (rest : list byte) (leftchar : N) :
  a2b_loop (BASE64_PAD :: rest) 3 leftchar 0 = Some [].
Proof. reflexivity. Qed.

(** The facts of [sextets_ok] for two bytes, as hypotheses. *)
Ltac pair_facts a b :=
  let H := fresh "H" in
  pose proof (sextets_ok_all (Byte.to_N a) (Byte.to_N b)
                (byte_bound a) (byte_bound b)) as H;
  unfold sextets_ok in H; cbv zeta in H;
  repeat (apply andb_true_iff in H; destruct H as [H ?]);
  repeat match goal with
    | E : (_ <? _) = true |- _ => apply N.ltb_lt in E
    | E : (_ =? _) = true |- _ => apply N.eqb_eq in E
    end.

Ltac rebuild :=
  apply byte_of_N_to_N;
  repeat match goal with
    | E : N.land ?x _ = _ |- context [N.land ?x _] => rewrite E
    end;
  assumption.

(** [decode(encode(x)) == x] *)
Lemma b64decode_b64encode (bin : list byte) :
  b64decode (b64encode bin) = Some bin.
Proof.
  unfold b64decode.
  induction bin as [ | a | a b | a b c rest IH ] using list_ind3.
  - reflexivity.
  - pair_facts a a. cbn [b64encode].
    rewrite a2b_loop_sextet0, a2b_loop_sextet1, a2b_loop_pad2 by assumption.
    cbn [option_map]. do 2 f_equal. rebuild.
  - pair_facts a b. pair_facts b b. cbn [b64encode].
    rewrite a2b_loop_sextet0, a2b_loop_sextet1, a2b_loop_sextet2,
      a2b_loop_pad3 by assumption.
    cbn [option_map]. f_equal. f_equal; [rebuild|]. f_equal. rebuild.
  - pair_facts a b. pair_facts b c. pair_facts c c. cbn [b64encode].
    rewrite a2b_loop_sextet0, a2b_loop_sextet1, a2b_loop_sextet2,
      a2b_loop_sextet3, IH by assumption.
    cbn [option_map]. f_equal. f_equal; [rebuild|].
    f_equal; [rebuild|]. f_equal. rebuild.
Qed.

(** The encoded text is ASCII. *)
Lemma b2a_ascii (v : N) : is_ascii (b2a v) = true.
Proof.
  unfold b2a.
  assert (Htable : forallb is_ascii table_b2a_base64 = true)
    by (vm_compute; reflexivity).
  rewrite forallb_forall in Htable.
  destruct (Nat.lt_ge_cases (N.to_nat v) (List.length table_b2a_base64))
    as [Hlt|Hge].
  - apply Htable, nth_In, Hlt.
  - rewrite nth_overflow by exact Hge. reflexivity.
Qed.

Lemma b64encode_ascii (bin : list byte) :
  forallb is_ascii (b64encode bin) = true.
Proof.
  induction bin as [ | a | a b | a b c rest IH ] using list_ind3;
    cbn [b64encode forallb]; rewrite ?b2a_ascii, ?IH; reflexivity.
Qed.

Lemma well_formed_ascii (bs : list byte) :
  forallb is_ascii bs = true -> Utf8.well_formed bs = true.
Proof.
  induction bs as [|b bs IH]; [reflexivity|].
  cbn [forallb]. intros H. apply andb_true_iff in H. destruct H as [Hb Hbs].
  cbn [Utf8.well_formed].
  assert (Hlow : Utf8.between 0 127 b = true).
  { unfold Utf8.between. unfold is_ascii in Hb. apply N.ltb_lt in Hb.
    apply andb_true_iff. split; apply N.leb_le; lia. }
  rewrite Hlow. now apply IH.
Qed.

(** What [get_image] makes of an encoded payload, and what the client
    gets back from it. *)
Lemma decode_b64encode (bin : list byte) :
  Utf8.decode (b64encode bin) = Some (string_of_list_byte (b64encode bin)).
Proof.
  unfold Utf8.decode.
  now rewrite (well_formed_ascii _ (b64encode_ascii bin)).
Qed.

Lemma b64decode_str_b64encode (bin : list byte) :
  b64decode_str (string_of_list_byte (b64encode bin)) = Some bin.
Proof.
  unfold b64decode_str. rewrite list_byte_of_string_of_list_byte.
  cbv zeta. rewrite b64encode_ascii. apply b64decode_b64encode.
Qed.

(** The length of the encoded text. *)
Lemma b64encode_length (bin : list byte) :
  List.length (b64encode bin) = (4 * ((List.length bin + 2) / 3))%nat.
Proof.
  induction bin as [ | a | a b | a b c rest IH ] using list_ind3;
    try reflexivity.
  cbn [b64encode List.length]. rewrite IH.
  replace (S (S (S (List.length rest))) + 2)%nat
    with (1 * 3 + (List.length rest + 2))%nat by lia.
  rewrite Nat.div_add_l by discriminate. lia.
Qed.

Lemma b64encode_length_N (bin : list byte) :
  N.of_nat (List.length (b64encode bin))
  = 4 * ((N.of_nat (List.length bin) + 2) / 3).
Proof.
  rewrite b64encode_length, Nat2N.inj_mul, Nat2N.inj_div, Nat2N.inj_add.
  reflexivity.
Qed.

(** The encoded text is at least four thirds of the payload. *)
Lemma b64encode_length_lower (bin : list byte) :
  4 * N.of_nat (List.length bin) <= 3 * N.of_nat (List.length (b64encode bin)).
Proof.
  rewrite b64encode_length_N.
  pose proof (N.div_mod' (N.of_nat (List.length bin) + 2) 3) as Hdiv.
  pose proof (N.mod_lt (N.of_nat (List.length bin) + 2) 3) as Hmod.
  lia.
Qed.

End Base64Facts.

Section EncodingClaims.

Variable pixels : Type.
Variable imdecode : list byte -> option pixels.
Variable model : option pixels -> outcome detections.

(** The size of the document an upload stores: four bytes of text for
    every three bytes of payload, the filename, the annotations, and 62
    bytes of structure. *)
Lemma uploaded_doc_size (image_data : list byte) (filename : string)
    (annotations : json) :
  Bson.doc_size (Doc.mk (Base64.b64encode image_data) filename annotations)
  = (4 * ((N.of_nat (List.length image_data) + 2) / 3)
     + N.of_nat (String.length filename)
     + Bson.value_size annotations + 62)%N.
Proof.
  rewrite doc_size_sum. cbn [Doc.image Doc.filename Doc.annotations].
  now rewrite Base64Facts.b64encode_length_N.
Qed.

(** From 12,582,912 bytes of payload on, the document is too large. *)
Lemma uploaded_doc_too_large (image_data : list byte) (filename : string)
    (annotations : json) :
  (12582912 <= N.of_nat (List.length image_data))%N ->
  (Bson.MAX_BSON_SIZE
   < Bson.doc_size (Doc.mk (Base64.b64encode image_data) filename annotations))%N.
Proof.
  intros H. rewrite doc_size_sum. cbn [Doc.image Doc.filename Doc.annotations].
  pose proof (Base64Facts.b64encode_length_lower image_data) as Hlen.
  unfold Bson.MAX_BSON_SIZE. lia.
Qed.

(** C3, as the code behaves: decoding the encoding of any byte sequence,
    the empty one included, gives the sequence back; and for a payload of
    fewer than 16,777,216 bytes whose document the store takes (its encoded
    size is within 16,777,216 bytes), uploaded under an allowed filename
    that has no record with annotations ["[]"], the upload succeeds, the
    record is appended, and the fetch of that filename answers with the
    same filename, the same annotations and an image text that decodes to
    exactly the payload. *)
Theorem upload_fetch_roundtrip :
  (forall B, Base64.b64decode (Base64.b64encode B) = Some B) /\
  Base64.b64decode (Base64.b64encode []) = Some [] /\
  (forall (c : Collection.t) (filename : string) (B : list byte),
     allowed_file filename = true ->
     ~ has_record filename c ->
     (N.of_nat (List.length B) < 16777216)%N ->
     (Bson.doc_size (Doc.mk (Base64.b64encode B) filename (JStr "[]"))
      <= Bson.MAX_BSON_SIZE)%N ->
     let upload :=
       POST_upload_image (Some {| fs_filename := filename; fs_read := B |})
         (Some "[]") in
     let c1 := snd (serve imdecode model c upload) in
     fst (serve imdecode model c upload)
       = (Message "File uploaded successfully", 200%Z) /\
     c1 = c ++ [Doc.mk (Base64.b64encode B) filename (JStr "[]")] /\
     exists text,
       serve imdecode model c1 (GET_get_image filename)
         = ((Entry {| entry_filename := filename;
                      entry_annotations := JStr "[]";
                      entry_image := text |}, 200%Z), c1) /\
       Base64.b64decode_str text = Some B).
Proof.
  split; [exact Base64Facts.b64decode_b64encode|].
  split; [reflexivity|].
  intros c filename B Hallowed Hnew Hsize Hfits upload c1.
  assert (Hserve :
    serve imdecode model c upload =
    ((Message "File uploaded successfully", 200%Z),
     c ++ [Doc.mk (Base64.b64encode B) filename (JStr "[]")])).
  { unfold upload. rewrite serve_upload_image. cbn [fs_filename fs_read].
    rewrite Hallowed, (allowed_file_truthy _ Hallowed).
    apply find_one_None in Hnew. rewrite Hnew.
    apply N.ltb_lt in Hsize. rewrite Hsize. cbv zeta.
    cbn [stored_annotations].
    now rewrite (storable_fits
                   (Doc.mk (Base64.b64encode B) filename (JStr "[]"))
                   eq_refl Hfits). }
  unfold c1. rewrite Hserve. cbn [fst snd]. split; [reflexivity|].
  split; [reflexivity|].
  exists (string_of_list_byte (Base64.b64encode B)).
  split; [|apply Base64Facts.b64decode_str_b64encode].
  rewrite serve_get_image.
  rewrite (find_one_inserted filename c
             (Doc.mk (Base64.b64encode B) filename (JStr "[]")));
    [|now apply find_one_None | reflexivity].
  cbn [Doc.image Doc.filename Doc.annotations].
  now rewrite Base64Facts.decode_b64encode.
Qed.

(** C4, as the code behaves: for an upload under an allowed filename that
    has no record, the request is refused as too large exactly when the
    payload has at least 16,777,216 bytes.  Below that the handler hands
    the encoded document to the store: when it is within the store's
    16,777,216 bytes (and the annotations field is text) the record is
    appended and found under its filename; when it is beyond them, which
    is the case from 12,582,912 bytes of payload on and so at 16,777,215
    bytes, the insert raises, the request ends in a 500 and nothing is
    stored. *)
Theorem upload_size_boundary (c : Collection.t) (file : FileStorage)
    (form_annotations : option string) :
  allowed_file (fs_filename file) = true ->
  ~ has_record (fs_filename file) c ->
  let size := N.of_nat (List.length (fs_read file)) in
  let upload := POST_upload_image (Some file) form_annotations in
  let d :=
    Doc.mk (Base64.b64encode (fs_read file)) (fs_filename file)
      (stored_annotations form_annotations) in
  (classify (fst (serve imdecode model c upload)) = Some PayloadTooLarge
   <-> (16777216 <= size)%N) /\
  ((16777216 <= size)%N ->
   serve imdecode model c upload = ((Message "File too big", 400%Z), c)) /\
  ((size < 16777216)%N ->
   Bson.encodable (stored_annotations form_annotations) = true ->
   (Bson.doc_size d <= 16777216)%N ->
   serve imdecode model c upload
     = ((Message "File uploaded successfully", 200%Z), c ++ [d]) /\
   Collection.find_one (fs_filename file) (c ++ [d]) = Some d) /\
  ((size < 16777216)%N -> (16777216 < Bson.doc_size d)%N ->
   serve imdecode model c upload = ((InternalServerError StoreError, 500%Z), c)) /\
  ((12582912 <= size)%N -> (size < 16777216)%N ->
   serve imdecode model c upload = ((InternalServerError StoreError, 500%Z), c)) /\
  (size = 16777216%N ->
   serve imdecode model c upload = ((Message "File too big", 400%Z), c)) /\
  (size = 16777215%N ->
   serve imdecode model c upload = ((InternalServerError StoreError, 500%Z), c)).
Proof.
  intros Hallowed Hnew size upload d.
  assert (Hserve :
    serve imdecode model c upload =
    if (size <? 16777216)%N
    then if Bson.storable d
         then ((Message "File uploaded successfully", 200%Z), c ++ [d])
         else ((InternalServerError StoreError, 500%Z), c)
    else ((Message "File too big", 400%Z), c)).
  { unfold upload. rewrite serve_upload_image.
    rewrite Hallowed, (allowed_file_truthy _ Hallowed).
    pose proof Hnew as Hnone. apply find_one_None in Hnone. rewrite Hnone.
    reflexivity. }
  assert (Hlarge : (12582912 <= size)%N -> Bson.storable d = false).
  { intros H. apply storable_too_large.
    apply (uploaded_doc_too_large (fs_read file)). exact H. }
  rewrite Hserve.
  destruct (N.ltb_spec size 16777216) as [Hlt|Hge].
  - split; [split; [destruct (Bson.storable d); cbn; discriminate | lia]|].
    split; [intros; lia|].
    split.
    { intros _ He Hfit. rewrite (storable_fits d He Hfit).
      split; [reflexivity|].
      apply find_one_inserted; [now apply find_one_None | reflexivity]. }
    split; [intros _ Hbig; now rewrite (storable_too_large d Hbig)|].
    split; [intros H _; now rewrite (Hlarge H)|].
    split; [intros; lia|].
    intros H. rewrite Hlarge; [reflexivity | lia].
  - split; [split; [intros _; exact Hge | intros _; reflexivity]|].
    split; [reflexivity|].
    split; [intros; lia|].
    split; [intros; lia|].
    split; [intros; lia|].
    split; [reflexivity|].
    intros; lia.
Qed.

End EncodingClaims.

(** C3 fails as stated for a payload of 16,777,216 bytes: the filename is
    allowed and unused, but the upload is refused and nothing can be
    fetched afterwards. *)
Lemma oversized_payload_not_fetched :
  let B := repeat x00 (N.to_nat 16777216) in
  let upload :=
    POST_upload_image (Some {| fs_filename := "cat.png"; fs_read := B |})
      (Some "[]") in
  let c1 := snd (serve Toy.imdecode Toy.model [] upload) in
  allowed_file "cat.png" = true /\
  ~ has_record "cat.png" [] /\
  serve Toy.imdecode Toy.model [] upload = ((Message "File too big", 400%Z), []) /\
  ~ exists text,
      serve Toy.imdecode Toy.model c1 (GET_get_image "cat.png")
        = ((Entry {| entry_filename := "cat.png";
                     entry_annotations := JStr "[]";
                     entry_image := text |}, 200%Z), c1).
Proof.
  intros B upload c1.
  assert (Hallowed : allowed_file "cat.png" = true) by reflexivity.
  assert (Hserve :
    serve Toy.imdecode Toy.model [] upload = ((Message "File too big", 400%Z), [])).
  { unfold upload. rewrite serve_upload_image. cbn [fs_filename fs_read].
    rewrite Hallowed. cbn [PyStr.truthy andb Collection.find_one find].
    unfold B. rewrite repeat_length, N2Nat.id. reflexivity. }
  split; [exact Hallowed|]. split; [intros []|]. split; [exact Hserve|].
  unfold c1. rewrite Hserve. cbn [snd]. rewrite serve_get_image.
  cbn [Collection.find_one find]. intros [text H]. discriminate H.
Qed.

(* ================================================================= *)
(** * The detection pipeline *)

Module PipelineFacts.

Lemma gt_iff (a b : Q) : Tensor.gt a b = true <-> (b < a)%Q.
Proof. unfold Tensor.gt, Qlt. apply Z.ltb_lt. Qed.

Lemma select_map {A B} (f : A -> B) (p : A -> bool) (l : list A) :
  Tensor.select (map f l) (map p l) = map f (filter p l).
Proof.
  induction l as [|x l IH]; simpl; [reflexivity|].
  destruct (p x); simpl; now rewrite IH.
Qed.

Lemma zip3_map {A B C D} (f : A -> B) (g : A -> C) (h : A -> D)
    (l : list A) :
  Tensor.zip3 (map f l) (map g l) (map h l)
  = map (fun x => (f x, g x, h x)) l.
Proof. induction l as [|x l IH]; simpl; [reflexivity | now rewrite IH]. Qed.

(** The rows that reach the inner loop. *)
Lemma filtered_rows (group : list raw) :
  let labels := map (fun r => Tensor.int (cls r)) group in
  let scores := map score group in
  let boxes := map (fun r => (x1 r, y1 r, x2 r, y2 r)) group in
  let mask := map (fun s => Tensor.gt s (1 # 2)) scores in
  Tensor.zip3 (Tensor.select labels mask) (Tensor.select scores mask)
    (Tensor.select boxes mask)
  = map (fun r => (Tensor.int (cls r), score r, (x1 r, y1 r, x2 r, y2 r)))
      (filter (fun r => Tensor.gt (score r) (1 # 2)) group).
Proof.
  intros labels scores boxes mask. unfold mask, scores. rewrite map_map.
  unfold labels, boxes. fold (map score group).
  rewrite !(select_map _ (fun r => Tensor.gt (score r) (1 # 2))).
  replace (Tensor.select (map score group)
             (map (fun r => Tensor.gt (score r) (1 # 2)) group))
    with (map score (filter (fun r => Tensor.gt (score r) (1 # 2)) group))
    by (symmetry; apply select_map).
  apply zip3_map.
Qed.

(** The inner loop on the surviving rows of a group. *)
Lemma make_annotations_rows (result_names : Z -> option string)
    (rows : list raw) :
  (forall r, In r rows -> result_names (Tensor.int (cls r)) <> None) ->
  exists out,
    make_annotations result_names
      (map (fun r => (Tensor.int (cls r), score r, (x1 r, y1 r, x2 r, y2 r)))
         rows) = Return out /\
    map Some out =
      map (fun r =>
             option_map
               (fun name => {| label := name;
                               confidence := score r;
                               bbox := [x1 r; y1 r; x2 r; y2 r] |})
               (result_names (Tensor.int (cls r)))) rows /\
    map confidence out = map score rows.
Proof.
  induction rows as [|r rows IH]; intros Hnames.
  - exists []. repeat split.
  - destruct IH as (out & Hout & Hspec & Hconf).
    { intros r' Hr'. apply Hnames. now right. }
    destruct (result_names (Tensor.int (cls r))) as [name|] eqn:E.
    + exists ({| label := name; confidence := score r;
                 bbox := [x1 r; y1 r; x2 r; y2 r] |} :: out).
      cbn [map make_annotations make_annotation]. rewrite E. simpl.
      rewrite Hout, Hspec, Hconf. repeat split.
    + elim (Hnames r); [now left | exact E].
Qed.

Lemma filter_pred_spec (result_names : Z -> option string)
    (group : list raw) :
  (forall r, In r group -> (1 # 2 < score r)%Q ->
             result_names (Tensor.int (cls r)) <> None) ->
  exists out,
    filter_pred result_names group = Return out /\
    map Some out = spec_filter result_names group /\
    map confidence out
      = filter (fun s => Tensor.gt s (1 # 2)) (map score group).
Proof.
  intros Hnames. unfold filter_pred. cbv zeta. rewrite filtered_rows.
  destruct (make_annotations_rows result_names
              (filter (fun r => Tensor.gt (score r) (1 # 2)) group))
    as (out & Hout & Hspec & Hconf).
  { intros r Hr. apply filter_In in Hr. destruct Hr as [Hin Hgt].
    apply Hnames; [assumption | now apply gt_iff]. }
  exists out. split; [exact Hout|]. split; [exact Hspec|].
  rewrite Hconf. clear. induction group as [|r group IH]; simpl; [reflexivity|].
  destruct (Tensor.gt (score r) (1 # 2)); simpl; now rewrite IH.
Qed.

End PipelineFacts.

(** C2: when every surviving class index is in the detector's vocabulary,
    the pipeline returns one list per detection group, in order; the list
    of a group holds exactly its entries whose confidence is strictly above
    one half, in their original order, each with the label of its class
    index, its confidence and its box.  For the confidences
    [0.9, 0.4, 0.5, 0.51] the entries of 0.9 and 0.51 survive, in that
    order. *)
Theorem confidence_filter (result_names : Z -> option string)
    (groups : list (list raw)) :
  (forall g r, In g groups -> In r g -> (1 # 2 < score r)%Q ->
               result_names (Tensor.int (cls r)) <> None) ->
  (exists out,
     filter_preds result_names groups = Return out /\
     List.length out = List.length groups /\
     map (map Some) out = map (spec_filter result_names) groups /\
     map (map confidence) out
       = map (fun g => filter (fun s => Tensor.gt s (1 # 2)) (map score g))
           groups) /\
  (forall s, Tensor.gt s (1 # 2) = true <-> (1 # 2 < s)%Q) /\
  map score Toy.group = [9 # 10; 4 # 10; 1 # 2; 51 # 100] /\
  filter_preds Toy.vocabulary [Toy.group]
    = Return [[ {| label := "person"; confidence := 9 # 10;
                   bbox := [0; 0; 10; 20] |};
                {| label := "dog"; confidence := 51 # 100;
                   bbox := [0; 0; 10; 20] |} ]].
Proof.
  intros Hnames. split; [|split; [|split; reflexivity]].
  - induction groups as [|g groups IH].
    + exists []. repeat split.
    + destruct IH as (out & Hout & Hlen & Hspec & Hconf).
      { intros g' r Hg'. apply Hnames. now right. }
      destruct (PipelineFacts.filter_pred_spec result_names g)
        as (o & Ho & Hos & Hoc).
      { intros r Hr. apply (Hnames g r); [now left | assumption]. }
      exists (o :: out). cbn [filter_preds map List.length].
      rewrite Ho, Hout, Hlen, Hos, Hspec, Hoc, Hconf. repeat split.
  - intros s. apply PipelineFacts.gt_iff.
Qed.

(* ================================================================= *)
(** * Concrete runs *)

(** The failing input of C1: fetching and predicting a filename that was
    never uploaded, on the empty collection. *)
Lemma missing_filename_faults_run :
  ~ has_record "missing.png" [] /\
  serve Toy.imdecode Toy.model [] (GET_get_image "missing.png")
    = ((InternalServerError TypeError, 500%Z), []) /\
  serve Toy.imdecode Toy.model [] (GET_get_predictions "missing.png")
    = ((InternalServerError TypeError, 500%Z), []).
Proof.
  assert (H : ~ has_record "missing.png" []) by (intros []).
  split; [exact H|].
  destruct (missing_filename_faults _ Toy.imdecode Toy.model [] "missing.png" H)
    as (H1 & H2 & _).
  split; [exact H1 | exact H2].
Defined.

(** The filter of C2 on the toy detector's group. *)
Lemma confidence_filter_run :
  exists out,
    filter_preds Toy.vocabulary [Toy.group] = Return out /\
    map (map confidence) out = [[9 # 10; 51 # 100]].
Proof.
  assert (H : forall g r, In g [Toy.group] -> In r g -> (1 # 2 < score r)%Q ->
                          Toy.vocabulary (Tensor.int (cls r)) <> None).
  { intros g r [<-|[]] Hr _.
    destruct Hr as [<-|[<-|[<-|[<-|[]]]]]; cbv; discriminate. }
  destruct (confidence_filter Toy.vocabulary [Toy.group] H)
    as ((out & Hout & _ & _ & Hconf) & _).
  exists out. split; [exact Hout | exact Hconf].
Defined.

(** The round trip of C3 on a four-byte payload. *)
Lemma upload_fetch_roundtrip_run :
  let B := [x89; x50; x4e; x47] in
  let upload :=
    POST_upload_image (Some {| fs_filename := "cat.png"; fs_read := B |})
      (Some "[]") in
  let c1 := snd (serve Toy.imdecode Toy.model [] upload) in
  allowed_file "cat.png" = true /\
  ~ has_record "cat.png" [] /\
  (N.of_nat (List.length B) < 16777216)%N /\
  (Bson.doc_size (Doc.mk (Base64.b64encode B) "cat.png" (JStr "[]"))
   <= Bson.MAX_BSON_SIZE)%N /\
  exists text,
    serve Toy.imdecode Toy.model c1 (GET_get_image "cat.png")
      = ((Entry {| entry_filename := "cat.png";
                   entry_annotations := JStr "[]";
                   entry_image := text |}, 200%Z), c1) /\
    Base64.b64decode_str text = Some B.
Proof.
  intros B upload c1.
  assert (Ha : allowed_file "cat.png" = true) by reflexivity.
  assert (Hn : ~ has_record "cat.png" []) by (intros []).
  assert (Hs : (N.of_nat (List.length B) < 16777216)%N) by reflexivity.
  assert (Hf : (Bson.doc_size (Doc.mk (Base64.b64encode B) "cat.png" (JStr "[]"))
                <= Bson.MAX_BSON_SIZE)%N)
    by (apply N.leb_le; reflexivity).
  split; [exact Ha|]. split; [exact Hn|]. split; [exact Hs|].
  split; [exact Hf|].
  destruct (upload_fetch_roundtrip _ Toy.imdecode Toy.model) as (_ & _ & H).
  exact (proj2 (proj2 (H [] "cat.png" B Ha Hn Hs Hf))).
Defined.

(** The boundary of C4 on two payloads under an allowed filename that has
    no record: two bytes are stored; 16,777,215 bytes pass the handler's
    size test, the store refuses the document, and the request ends in a
    500 with nothing stored. *)
Lemma upload_size_boundary_run :
  let small := {| fs_filename := "cat.png"; fs_read := [x89; x50] |} in
  let large :=
    {| fs_filename := "cat.png";
       fs_read := repeat x00 (N.to_nat 16777215) |} in
  allowed_file "cat.png" = true /\
  ~ has_record "cat.png" [] /\
  serve Toy.imdecode Toy.model [] (POST_upload_image (Some small) (Some "[]"))
    = ((Message "File uploaded successfully", 200%Z),
       [Doc.mk (Base64.b64encode [x89; x50]) "cat.png" (JStr "[]")]) /\
  serve Toy.imdecode Toy.model [] (POST_upload_image (Some large) (Some "[]"))
    = ((InternalServerError StoreError, 500%Z), []).
Proof.
  intros small large.
  assert (Ha : allowed_file "cat.png" = true) by reflexivity.
  assert (Hn : ~ has_record "cat.png" []) by (intros []).
  split; [exact Ha|]. split; [exact Hn|]. split.
  - destruct (upload_size_boundary _ Toy.imdecode Toy.model [] small
                (Some "[]") Ha Hn) as (_ & _ & H & _).
    apply H; [reflexivity | reflexivity | apply N.leb_le; reflexivity].
  - destruct (upload_size_boundary _ Toy.imdecode Toy.model [] large
                (Some "[]") Ha Hn) as (_ & _ & _ & _ & _ & _ & H).
    apply H. cbn [large fs_read]. now rewrite repeat_length, N2Nat.id.
Defined.

(** The duplicate upload of C5. *)
Lemma filename_uniqueness_run :
  let file := {| fs_filename := "cat.png"; fs_read := [x89; x50] |} in
  let c := run Toy.imdecode Toy.model []
             [POST_upload_image (Some file) (Some "[]")] in
  has_record (fs_filename file) c /\
  serve Toy.imdecode Toy.model c (POST_upload_image (Some file) None)
    = ((Message "File already exists", 400%Z), c).
Proof.
  intros file c.
  assert (H : has_record (fs_filename file) c) by (left; reflexivity).
  split; [exact H|].
  destruct (filename_uniqueness _ Toy.imdecode Toy.model
              [POST_upload_image (Some file) (Some "[]")]) as (_ & _ & H3).
  exact (proj1 (H3 file None H)).
Defined.



(** The unreadable payload of C7: one zero byte. *)
Lemma undecodable_payload_run :
  let d := Doc.mk (Base64.b64encode [x00]) "bad.png" JNull in
  Collection.find_one "bad.png" [d] = Some d /\
  Base64.b64decode (Doc.image d) = Some [x00] /\
  [x00] <> [] /\
  Toy.imdecode [x00] = None /\
  Toy.model None = Raise DetectorError /\
  serve Toy.imdecode Toy.model [d] (GET_get_predictions "bad.png")
    = ((InternalServerError DetectorError, 500%Z), [d]).
Proof.
  intros d.
  assert (Hf : Collection.find_one "bad.png" [d] = Some d) by reflexivity.
  assert (Hp : Base64.b64decode (Doc.image d) = Some [x00]) by reflexivity.
  assert (Hne : [x00] <> []) by discriminate.
  assert (Hd : Toy.imdecode [x00] = None) by reflexivity.
  assert (Hm : Toy.model None = Raise DetectorError) by reflexivity.
  repeat (split; [assumption|]).
  destruct (undecodable_payload _ Toy.imdecode Toy.model [d] "bad.png" d [x00]
              Hf Hp) as (_ & H2 & _).
  exact (H2 Hne Hd DetectorError Hm).
Defined.

(** C7 fails as stated for a record with an empty payload (an empty file
    was uploaded): the bytes are no readable image, and the prediction is
    answered 404 "File not found", which is [NotFound]. *)
Lemma empty_payload_not_found :
  let upload :=
    POST_upload_image (Some {| fs_filename := "empty.png"; fs_read := [] |})
      (Some "[]") in
  let c := snd (serve Toy.imdecode Toy.model [] upload) in
  let predict := GET_get_predictions "empty.png" in
  Collection.find_one "empty.png" c = Some (Doc.mk [] "empty.png" (JStr "[]")) /\
  Base64.b64decode [] = Some [] /\
  Toy.imdecode [] = None /\
  serve Toy.imdecode Toy.model c predict = ((Message "File not found", 404%Z), c) /\
  classify (fst (serve Toy.imdecode Toy.model c predict)) = Some NotFound /\
  classify (fst (serve Toy.imdecode Toy.model c predict)) <> Some DecodeError.
Proof.
  intros upload c predict. repeat split; try reflexivity. discriminate.
Qed.

(** The two deletes of C8: one of an existing record, one of a missing one. *)
Lemma delete_reports_removal_run :
  let d := Doc.mk (Base64.b64encode [x89]) "cat.png" (JStr "[]") in
  has_record "cat.png" [d] /\
  ~ has_record "dog.png" [d] /\
  serve Toy.imdecode Toy.model [d] (DELETE_delete_image "dog.png")
    = ((Message "File not found in the database", 404%Z), [d]) /\
  exists before d' after,
    [d] = before ++ d' :: after /\
    serve Toy.imdecode Toy.model [d] (DELETE_delete_image "cat.png")
      = ((Message "File deleted successfully", 200%Z), before ++ after).
Proof.
  intros d.
  assert (Hin : has_record "cat.png" [d]) by (left; reflexivity).
  assert (Hout : ~ has_record "dog.png" [d])
    by (intros [H|[]]; discriminate H).
  split; [exact Hin|]. split; [exact Hout|].
  split.
  - exact (proj2 (delete_reports_removal _ Toy.imdecode Toy.model [d] "dog.png")
             Hout).
  - destruct (proj1 (delete_reports_removal _ Toy.imdecode Toy.model [d] "cat.png")
                Hin) as (before & d' & after & Hc & _ & _ & Hs & _).
    exists before, d', after. split; [exact Hc | exact Hs].
Defined.

(** The extension check of C10 on a name without a dot. *)
Lemma extension_check_run :
  PyStr.contains "." "README" = false /\
  serve Toy.imdecode Toy.model []
    (POST_upload_image (Some {| fs_filename := "README"; fs_read := [x89] |})
       None)
    = ((Message "Invalid request", 400%Z), []).
Proof.
  assert (H : PyStr.contains "." "README" = false) by reflexivity.
  split; [exact H|].
  destruct (extension_check _ Toy.imdecode Toy.model "README") as (_ & _ & H3 & _).
  exact (proj1 (H3 H [] [x89] None)).
Defined.

(* ================================================================= *)
(** * Further properties of the handlers *)

(** ** Listing and fetching *)

Lemma decode_images_well_formed (c : list Doc.t) :
  Forall (fun d => Utf8.well_formed (Doc.image d) = true) c ->
  decode_images c = Return (map entry_of c).
Proof.
  induction 1 as [|d c Hd _ IH]; [reflexivity|].
  cbn [decode_images map]. unfold Utf8.decode. rewrite Hd, IH. reflexivity.
Qed.

Lemma decode_images_ill_formed (c : list Doc.t) :
  Exists (fun d => Utf8.well_formed (Doc.image d) = false) c ->
  decode_images c = Raise UnicodeDecodeError.
Proof.
  induction 1 as [d c Hd | d c _ IH]; cbn [decode_images]; unfold Utf8.decode.
  - rewrite Hd. reflexivity.
  - destruct (Utf8.well_formed (Doc.image d)); [|reflexivity].
    cbn [of_option obind]. rewrite IH. reflexivity.
Qed.

Lemma stored_by_upload_well_formed (d : Doc.t) :
  stored_by_upload d -> Utf8.well_formed (Doc.image d) = true.
Proof.
  intros (_ & B & -> & _).
  apply Base64Facts.well_formed_ascii, Base64Facts.b64encode_ascii.
Qed.

Lemma stored_by_upload_decodes (d : Doc.t) :
  stored_by_upload d ->
  exists B,
    Base64.b64decode_str (entry_image (entry_of d)) = Some B /\
    Base64.b64decode (Doc.image d) = Some B /\
    (N.of_nat (List.length B) < 16777216)%N.
Proof.
  intros (_ & B & HB & Hsize). exists B. unfold entry_of. cbn [entry_image].
  rewrite HB. split; [apply Base64Facts.b64decode_str_b64encode|].
  split; [apply Base64Facts.b64decode_b64encode | exact Hsize].
Qed.

Section StoredDocuments.

Variable pixels : Type.
Variable imdecode : list byte -> option pixels.
Variable model : option pixels -> outcome detections.

(** What a request does to the collection, with the inserted document. *)
Lemma serve_shape (c : Collection.t) (r : request) :
  snd (serve imdecode model c r) = c \/
  (exists d, stored_by_upload d /\ snd (serve imdecode model c r) = c ++ [d]) \/
  (exists before d after,
      c = before ++ d :: after /\
      snd (serve imdecode model c r) = before ++ after) \/
  (exists before d v after,
      c = before ++ d :: after /\
      snd (serve imdecode model c r) = before ++ set_annotations d v :: after).
Proof.
  destruct r as [[file|] ann | filename | filename | | filename body | filename];
    try (destruct (serve_collection pixels imdecode model c
                     ltac:(first [ exact (DELETE_delete_image filename)
                                 | exact (PUT_edit filename body) ]))
           as [H | [(d & _ & _ & H) | H]]; fail).
  - rewrite serve_upload_image.
    destruct (PyStr.truthy (fs_filename file)); cbn [andb]; [|now left].
    destruct (allowed_file (fs_filename file)) eqn:Ea; [|now left].
    destruct (Collection.find_one (fs_filename file) c); [now left|].
    destruct (N.ltb_spec (N.of_nat (List.length (fs_read file))) 16777216)
      as [Hlt|_]; [|now left].
    cbv zeta. destruct (Bson.storable _); [|now left].
    right. left. eexists. split; [|reflexivity].
    split; [exact Ea|]. exists (fs_read file). split; [reflexivity | exact Hlt].
  - now left.
  - destruct (serve_collection pixels imdecode model c
                (DELETE_delete_image filename))
      as [H | [(d & Hd & _ & H) | H]]; [now left | | now right; right].
    exfalso. rewrite serve_delete_image in H. cbn [snd] in H.
    destruct (has_record_dec filename c) as [Hr|Hr].
    + destruct (delete_one_present filename c Hr)
        as (before & d' & after & Hc & _ & _ & Hdel).
      rewrite Hdel in H. cbn [snd] in H. subst c.
      apply (f_equal (@List.length _)) in H.
      rewrite !length_app in H. cbn [List.length] in H. lia.
    + rewrite (delete_one_absent filename c Hr) in H. cbn [snd] in H.
      apply (f_equal (@List.length _)) in H.
      rewrite length_app in H. cbn [List.length] in H. lia.
  - left. apply serve_get_image_frame.
  - left. apply serve_get_all_frame.
  - destruct (serve_edit_collection pixels imdecode model c filename body)
      as [H | (before & d & v & after & Hc & _ & H)]; [now left|].
    right. right. right. now exists before, d, v, after.
  - left. apply serve_get_predictions_frame.
Qed.

Lemma serve_preserves_stored (c : Collection.t) (r : request) :
  Forall stored_by_upload c ->
  Forall stored_by_upload (snd (serve imdecode model c r)).
Proof.
  intros Hc.
  destruct (serve_shape c r)
    as [-> | [(d & Hd & ->) | [(before & d & after & -> & ->)
                              | (before & d & v & after & -> & ->)]]].
  - exact Hc.
  - apply Forall_app. split; [exact Hc | now constructor].
  - apply Forall_app in Hc. destruct Hc as [H1 H2].
    apply Forall_cons_iff in H2. apply Forall_app. now split.
  - apply Forall_app in Hc. destruct Hc as [H1 H2].
    apply Forall_cons_iff in H2. destruct H2 as [H2 H3].
    apply Forall_app. split; [exact H1|]. constructor; [|exact H3]. exact H2.
Qed.

Lemma run_preserves_stored (rs : list request) (c : Collection.t) :
  Forall stored_by_upload c ->
  Forall stored_by_upload (run imdecode model c rs).
Proof.
  revert c. induction rs as [|r rs IH]; intros c H; [exact H|].
  cbn [run]. apply IH, serve_preserves_stored, H.
Qed.

End StoredDocuments.

(** ** Lookups under another filename *)

Lemma find_one_app (filename : string) (a b : Collection.t) :
  Collection.find_one filename (a ++ b) =
  match Collection.find_one filename a with
  | Some d => Some d
  | None => Collection.find_one filename b
  end.
Proof.
  unfold Collection.find_one. induction a as [|x a IH]; simpl; [reflexivity|].
  destruct (Collection.matches filename x); [reflexivity | exact IH].
Qed.

Lemma find_one_delete_other (filename other : string) (c : Collection.t) :
  filename <> other ->
  Collection.find_one other (snd (Collection.delete_one filename c))
  = Collection.find_one other c.
Proof.
  intros Hne. unfold Collection.find_one.
  induction c as [|x c IH]; simpl; [reflexivity|].
  destruct (Collection.matches filename x) eqn:E.
  - apply matches_true in E. simpl.
    destruct (Collection.matches other x) eqn:E'; [|reflexivity].
    apply matches_true in E'. congruence.
  - destruct (Collection.delete_one filename c) as [n c']. simpl in *.
    now rewrite IH.
Qed.

Lemma find_one_update_other (filename other : string) (v : json)
    (c : Collection.t) :
  filename <> other ->
  Collection.find_one other (snd (Collection.apply_set filename v c))
  = Collection.find_one other c.
Proof.
  intros Hne. unfold Collection.find_one.
  induction c as [|x c IH]; simpl; [reflexivity|].
  destruct (Collection.matches filename x) eqn:E.
  - apply matches_true in E. simpl. unfold Collection.matches at 1. simpl.
    fold (Collection.matches other x).
    destruct (Collection.matches other x) eqn:E'; [|reflexivity].
    apply matches_true in E'. congruence.
  - destruct (Collection.apply_set filename v c) as [n c']. simpl in *.
    now rewrite IH.
Qed.

Lemma delete_one_inserted (filename : string) (c : Collection.t) (d : Doc.t) :
  ~ has_record filename c ->
  Doc.filename d = filename ->
  Collection.delete_one filename (c ++ [d]) = (1%N, c).
Proof.
  unfold has_record. intros Hc Hd.
  induction c as [|x c IH]; simpl.
  - apply matches_true in Hd. now rewrite Hd.
  - destruct (Collection.matches filename x) eqn:E.
    + apply matches_true in E. elim Hc. now left.
    + rewrite IH; [reflexivity|]. intros H. apply Hc. now right.
Qed.

Lemma dict_get_missing (d : list (string * json)) (key : string)
    (default : json) :
  ~ In key (map fst d) -> dict_get d key default = default.
Proof.
  induction d as [|[k v] d IH]; simpl; [reflexivity|].
  intros H. destruct (String.eqb_spec k key) as [->|_].
  - elim H. now left.
  - apply IH. intros H1. apply H. now right.
Qed.

(** ** Properties beyond the claims *)

Section Further.

Variable pixels : Type.
Variable imdecode : list byte -> option pixels.
Variable model : option pixels -> outcome detections.

(** X1: whatever requests were served from the empty collection, every
    stored document has an allowed filename and holds, as its image, the
    encoding of a payload of fewer than 16,777,216 bytes, which decoding
    gives back. *)
Theorem stored_documents_are_uploads (rs : list request) (d : Doc.t) :
  In d (run imdecode model [] rs) ->
  allowed_file (Doc.filename d) = true /\
  exists B,
    Doc.image d = Base64.b64encode B /\
    Base64.b64decode (Doc.image d) = Some B /\
    (N.of_nat (List.length B) < 16777216)%N.
Proof.
  intros Hin.
  pose proof (run_preserves_stored pixels imdecode model rs [] (Forall_nil _))
    as Hall.
  rewrite Forall_forall in Hall. destruct (Hall d Hin) as (Ha & B & HB & Hsize).
  split; [exact Ha|]. exists B. split; [exact HB|]. split; [|exact Hsize].
  rewrite HB. apply Base64Facts.b64decode_b64encode.
Qed.

(** X2: after any sequence of requests from the empty collection, the
    listing answers 200 with one entry per stored document, in the order
    of the collection, each with the document's filename and annotations
    and an image text that decodes to a payload below the size limit. *)
Theorem listing_after_requests (rs : list request) :
  let c := run imdecode model [] rs in
  serve imdecode model c GET_get_all = ((Entries (map entry_of c), 200%Z), c) /\
  Forall
    (fun e =>
       exists B, Base64.b64decode_str (entry_image e) = Some B /\
                 (N.of_nat (List.length B) < 16777216)%N)
    (map entry_of c).
Proof.
  intros c.
  pose proof (run_preserves_stored pixels imdecode model rs [] (Forall_nil _))
    as Hall.
  fold c in Hall. split.
  - rewrite serve_get_all, decode_images_well_formed; [reflexivity|].
    eapply Forall_impl; [|exact Hall]. apply stored_by_upload_well_formed.
  - apply Forall_map. eapply Forall_impl; [|exact Hall].
    intros d Hd. destruct (stored_by_upload_decodes d Hd) as (B & H1 & _ & H3).
    now exists B.
Qed.

(** X3: on any collection the listing is all or nothing: when every stored
    image is well-formed UTF-8 it answers 200 with the entry of every
    document, in order; when one stored image is not, the whole request
    ends in an unhandled [UnicodeDecodeError] (status 500).  The collection
    is unchanged either way. *)
Theorem listing_all_or_nothing (c : Collection.t) :
  (Forall (fun d => Utf8.well_formed (Doc.image d) = true) c ->
   serve imdecode model c GET_get_all
     = ((Entries (map entry_of c), 200%Z), c)) /\
  (Exists (fun d => Utf8.well_formed (Doc.image d) = false) c ->
   serve imdecode model c GET_get_all
     = ((InternalServerError UnicodeDecodeError, 500%Z), c)).
Proof.
  split; intros H; rewrite serve_get_all.
  - now rewrite decode_images_well_formed.
  - now rewrite decode_images_ill_formed.
Qed.

(** X4: after any sequence of requests from the empty collection, fetching
    a filename that has a record answers 200 with that record's filename
    and annotations and an image text that decodes to its payload. *)
Theorem fetch_after_requests (rs : list request) (filename : string) :
  let c := run imdecode model [] rs in
  has_record filename c ->
  exists d B,
    Collection.find_one filename c = Some d /\
    Doc.filename d = filename /\
    serve imdecode model c (GET_get_image filename)
      = ((Entry (entry_of d), 200%Z), c) /\
    Base64.b64decode_str (entry_image (entry_of d)) = Some B /\
    Doc.image d = Base64.b64encode B.
Proof.
  intros c Hrec.
  pose proof (run_preserves_stored pixels imdecode model rs [] (Forall_nil _))
    as Hall.
  fold c in Hall. apply has_record_find_one in Hrec. destruct Hrec as [d Hd].
  destruct (find_one_Some _ _ _ Hd) as [Hin Hname].
  rewrite Forall_forall in Hall. pose proof (Hall d Hin) as Hs.
  destruct Hs as (Ha & B & HB & Hsize).
  exists d, B. split; [exact Hd|]. split; [exact Hname|].
  split; [|split; [|exact HB]].
  - rewrite serve_get_image, Hd. unfold Utf8.decode.
    rewrite (stored_by_upload_well_formed d (Hall d Hin)). reflexivity.
  - unfold entry_of. cbn [entry_image]. rewrite HB.
    apply Base64Facts.b64decode_str_b64encode.
Qed.

(** X5: an upload is all or nothing.  It answers 200, 400 or 500; unless
    it answers 200 the collection is unchanged; with 200 the request
    carried a file with an allowed filename that had no record, fewer than
    16,777,216 bytes and a document that the store takes (annotations that
    are text, an encoded size within 16,777,216 bytes), and exactly one
    document was appended: that filename, the encoded payload, and the
    annotations field of the form ([null] when absent); with 500 the file
    passed every test of the handler and the store refused the document. *)
Theorem upload_all_or_nothing (c : Collection.t)
    (files_image : option FileStorage) (form_annotations : option string) :
  let upload := POST_upload_image files_image form_annotations in
  let resp := fst (serve imdecode model c upload) in
  let c' := snd (serve imdecode model c upload) in
  (status resp = 200%Z \/ status resp = 400%Z \/ status resp = 500%Z) /\
  (status resp <> 200%Z -> c' = c) /\
  (status resp = 200%Z ->
   exists file,
     files_image = Some file /\
     allowed_file (fs_filename file) = true /\
     ~ has_record (fs_filename file) c /\
     (N.of_nat (List.length (fs_read file)) < 16777216)%N /\
     Bson.encodable (stored_annotations form_annotations) = true /\
     (Bson.doc_size
        (Doc.mk (Base64.b64encode (fs_read file)) (fs_filename file)
           (stored_annotations form_annotations)) <= 16777216)%N /\
     c' = c ++ [Doc.mk (Base64.b64encode (fs_read file)) (fs_filename file)
                  (stored_annotations form_annotations)]) /\
  (status resp = 500%Z ->
   resp = (InternalServerError StoreError, 500%Z) /\
   exists file,
     files_image = Some file /\
     allowed_file (fs_filename file) = true /\
     ~ has_record (fs_filename file) c /\
     (N.of_nat (List.length (fs_read file)) < 16777216)%N /\
     (Bson.encodable (stored_annotations form_annotations) = false \/
      (16777216 <
       Bson.doc_size
         (Doc.mk (Base64.b64encode (fs_read file)) (fs_filename file)
            (stored_annotations form_annotations)))%N)).
Proof.
  intros upload resp c'. unfold resp, c', upload.
  assert (Hrefused : forall m,
    let r := ((Message m, 400%Z), c) : response * Collection.t in
    (status (fst r) = 200%Z \/ status (fst r) = 400%Z \/ status (fst r) = 500%Z)
    /\ (status (fst r) <> 200%Z -> snd r = c)
    /\ (status (fst r) = 200%Z -> False) /\ (status (fst r) = 500%Z -> False)).
  { intros m r. cbn. repeat split; auto; discriminate. }
  destruct files_image as [file|].
  - rewrite serve_upload_image.
    destruct (PyStr.truthy (fs_filename file)); cbn [andb];
      [|destruct (Hrefused "Invalid request") as (H1 & H2 & H3 & H4);
        split; [exact H1|]; split; [exact H2|]; split; intros H;
        [elim (H3 H) | elim (H4 H)]].
    destruct (allowed_file (fs_filename file)) eqn:Ea;
      [|destruct (Hrefused "Invalid request") as (H1 & H2 & H3 & H4);
        split; [exact H1|]; split; [exact H2|]; split; intros H;
        [elim (H3 H) | elim (H4 H)]].
    destruct (Collection.find_one (fs_filename file) c) eqn:Ef;
      [destruct (Hrefused "File already exists") as (H1 & H2 & H3 & H4);
       split; [exact H1|]; split; [exact H2|]; split; intros H;
        [elim (H3 H) | elim (H4 H)]|].
    destruct (N.ltb_spec (N.of_nat (List.length (fs_read file))) 16777216)
      as [Hlt|_];
      [|destruct (Hrefused "File too big") as (H1 & H2 & H3 & H4);
        split; [exact H1|]; split; [exact H2|]; split; intros H;
        [elim (H3 H) | elim (H4 H)]].
    cbv zeta. apply find_one_None in Ef.
    destruct (Bson.storable
                (Doc.mk (Base64.b64encode (fs_read file)) (fs_filename file)
                   (stored_annotations form_annotations))) eqn:Es;
      cbn [fst snd status].
    + apply storable_inv in Es. destruct Es as [He Hfit].
      cbn [Doc.annotations] in He.
      split; [now left|]. split; [intros H; now elim H|].
      split; [|discriminate]. intros _. exists file. repeat split; assumption.
    + apply not_storable_inv in Es. cbn [Doc.annotations] in Es.
      split; [now right; right|]. split; [reflexivity|].
      split; [discriminate|]. intros _. split; [reflexivity|].
      exists file. repeat split; assumption.
  - destruct (Hrefused "Image not in request") as (H1 & H2 & H3 & H4).
    split; [exact H1|]; split; [exact H2|]; split; intros H;
        [elim (H3 H) | elim (H4 H)].
Qed.

(** X6: a request leaves the records of every other filename alone: the
    lookup of a filename that the request does not write under finds the
    same document before and after. *)
Theorem other_filenames_untouched (c : Collection.t) (r : request)
    (other : string) :
  target r <> Some other ->
  Collection.find_one other (snd (serve imdecode model c r))
  = Collection.find_one other c.
Proof.
  intros Ht.
  destruct r as [[file|] ann | filename | filename | | filename body | filename];
    cbn [target] in Ht.
  - rewrite serve_upload_image.
    destruct (PyStr.truthy (fs_filename file) && allowed_file (fs_filename file));
      [|reflexivity].
    destruct (Collection.find_one (fs_filename file) c); [reflexivity|].
    destruct (N.of_nat (List.length (fs_read file)) <? 16777216)%N;
      [|reflexivity].
    cbv zeta. destruct (Bson.storable _);
      [|reflexivity].
    cbn [snd]. rewrite find_one_app.
    destruct (Collection.find_one other c); [reflexivity|].
    unfold Collection.find_one. cbn [find].
    destruct (Collection.matches other _) eqn:E; [|reflexivity].
    apply matches_true in E. cbn [Doc.filename] in E. congruence.
  - reflexivity.
  - rewrite serve_delete_image. cbn [snd]. apply find_one_delete_other.
    congruence.
  - now rewrite serve_get_image_frame.
  - now rewrite serve_get_all_frame.
  - destruct (serve_edit_collection pixels imdecode model c filename body)
      as [-> | (before & d & v & after & -> & Hd & ->)]; [reflexivity|].
    rewrite !find_one_app.
    destruct (Collection.find_one other before); [reflexivity|].
    unfold Collection.find_one. cbn [find].
    unfold Collection.matches, set_annotations. cbn [Doc.filename].
    rewrite Hd. destruct (String.eqb_spec filename other) as [->|_];
      [now elim Ht | reflexivity].
  - now rewrite serve_get_predictions_frame.
Qed.

(** X7: deleting what was just uploaded restores the collection: after an
    accepted upload under a filename that had no record (allowed name,
    payload below the handler's limit, annotations that are text, document
    within the store's limit), the delete of that filename answers 200 and
    the collection is exactly what it was before the upload. *)
Theorem upload_then_delete_restores (c : Collection.t) (file : FileStorage)
    (form_annotations : option string) :
  allowed_file (fs_filename file) = true ->
  ~ has_record (fs_filename file) c ->
  (N.of_nat (List.length (fs_read file)) < 16777216)%N ->
  Bson.encodable (stored_annotations form_annotations) = true ->
  (Bson.doc_size
     (Doc.mk (Base64.b64encode (fs_read file)) (fs_filename file)
        (stored_annotations form_annotations)) <= 16777216)%N ->
  let upload := POST_upload_image (Some file) form_annotations in
  let c1 := snd (serve imdecode model c upload) in
  fst (serve imdecode model c upload)
    = (Message "File uploaded successfully", 200%Z) /\
  serve imdecode model c1 (DELETE_delete_image (fs_filename file))
    = ((Message "File deleted successfully", 200%Z), c).
Proof.
  intros Ha Hnew Hsize Htext Hfits upload c1. unfold c1, upload.
  rewrite serve_upload_image.
  rewrite Ha, (allowed_file_truthy _ Ha). cbn [andb].
  pose proof Hnew as Hf. apply find_one_None in Hf. rewrite Hf.
  apply N.ltb_lt in Hsize. rewrite Hsize. cbv zeta.
  rewrite (storable_uploaded _ _ _ Htext Hfits).
  cbn [fst snd]. split; [reflexivity|].
  rewrite serve_delete_image, delete_one_inserted; [reflexivity | exact Hnew |].
  reflexivity.
Qed.

(** An edit of a filename that has a record, with a value the driver can
    send and which leaves the document within the size limit. *)
Lemma serve_edit_present (c : Collection.t) (filename : string)
    (request_json : list (string * json)) :
  let v := dict_get request_json "annotations" (JStr "") in
  has_record filename c ->
  Bson.sendable v = true ->
  (forall d, Collection.find_one filename c = Some d ->
             Collection.outgrows d v = false) ->
  exists before d after,
    c = before ++ d :: after /\
    Doc.filename d = filename /\
    ~ has_record filename before /\
    Collection.find_one filename c = Some d /\
    serve imdecode model c (PUT_edit filename (Parsed (JDict request_json))) =
      ((if json_eqb (Doc.annotations d) v
        then (Message "File not found or annotations not updated", 404%Z)
        else (Message "Annotations updated successfully", 200%Z)),
       before ++ set_annotations d v :: after).
Proof.
  intros v Hrec Hsend Hfits.
  destruct (update_one_present filename v c Hrec)
    as (before & d & after & Hc & Hd & Hb & Hf & Hup).
  exists before, d, after. repeat (split; [assumption|]).
  rewrite serve_edit_object. fold v.
  rewrite (update_one_present_sendable filename v c d Hsend Hf).
  rewrite (Hfits d Hf), Hup. cbn [fst snd].
  destruct (json_eqb (Doc.annotations d) v); reflexivity.
Qed.

Lemma json_eqb_refl (v : json) : json_eqb v v = true.
Proof. now apply json_eqb_eq. Qed.

Lemma outgrows_set (d : Doc.t) (v : json) :
  Collection.outgrows (set_annotations d v) v = Collection.outgrows d v.
Proof. reflexivity. Qed.

(** X8: a delete frees the filename: in a collection with unique
    filenames, after the delete of a filename that has a record, an upload
    under that filename (allowed, below the handler's limit, annotations
    that are text, document within the store's limit) is accepted and
    appended. *)
Theorem delete_frees_filename (c : Collection.t) (file : FileStorage)
    (form_annotations : option string) :
  unique_filenames c ->
  has_record (fs_filename file) c ->
  allowed_file (fs_filename file) = true ->
  (N.of_nat (List.length (fs_read file)) < 16777216)%N ->
  Bson.encodable (stored_annotations form_annotations) = true ->
  (Bson.doc_size
     (Doc.mk (Base64.b64encode (fs_read file)) (fs_filename file)
        (stored_annotations form_annotations)) <= 16777216)%N ->
  let c1 :=
    snd (serve imdecode model c (DELETE_delete_image (fs_filename file))) in
  serve imdecode model c1 (POST_upload_image (Some file) form_annotations)
    = ((Message "File uploaded successfully", 200%Z),
       c1 ++ [Doc.mk (Base64.b64encode (fs_read file)) (fs_filename file)
                (stored_annotations form_annotations)]).
Proof.
  intros Hu Hrec Ha Hsize Htext Hfits c1.
  destruct (delete_one_present _ c Hrec)
    as (before & d & after & Hc & Hd & _ & Hdel).
  assert (Hc1 : c1 = before ++ after).
  { unfold c1. now rewrite serve_delete_image, Hdel. }
  assert (Hfree : ~ has_record (fs_filename file) c1).
  { rewrite Hc1. unfold unique_filenames, has_record in *. subst c.
    rewrite map_app in Hu. cbn [map] in Hu. rewrite Hd in Hu.
    apply NoDup_remove_2 in Hu. now rewrite map_app. }
  rewrite serve_upload_image, Ha, (allowed_file_truthy _ Ha). cbn [andb].
  apply find_one_None in Hfree. rewrite Hfree.
  apply N.ltb_lt in Hsize. rewrite Hsize. cbv zeta.
  now rewrite (storable_uploaded _ _ _ Htext Hfits).
Qed.

(** X9: repeating an edit never changes anything more: the same request
    served a second time leaves the collection as the first left it.  When
    the first edit answered 200 or 404 the second answers 404 ("File not
    found or annotations not updated"); when the first was refused or
    failed (400, 415 or 500) the second gets the same answer. *)
Theorem repeated_edit (c : Collection.t) (filename : string)
    (body : request_body) :
  let edit := PUT_edit filename body in
  let resp1 := fst (serve imdecode model c edit) in
  let c1 := snd (serve imdecode model c edit) in
  let resp2 := fst (serve imdecode model c1 edit) in
  snd (serve imdecode model c1 edit) = c1 /\
  (status resp1 = 200%Z \/ status resp1 = 404%Z ->
   resp2 = (Message "File not found or annotations not updated", 404%Z)) /\
  (status resp1 <> 200%Z -> resp2 = resp1 /\ c1 = c).
Proof.
  intros edit resp1 c1 resp2. unfold resp2, c1, resp1, edit.
  assert (Hfail : forall resp : response,
    serve imdecode model c (PUT_edit filename body) = (resp, c) ->
    status resp <> 200%Z -> status resp <> 404%Z ->
    snd (serve imdecode model
           (snd (serve imdecode model c (PUT_edit filename body)))
           (PUT_edit filename body))
    = snd (serve imdecode model c (PUT_edit filename body)) /\
    (status (fst (serve imdecode model c (PUT_edit filename body))) = 200%Z \/
     status (fst (serve imdecode model c (PUT_edit filename body))) = 404%Z ->
     fst (serve imdecode model
            (snd (serve imdecode model c (PUT_edit filename body)))
            (PUT_edit filename body))
     = (Message "File not found or annotations not updated", 404%Z)) /\
    (status (fst (serve imdecode model c (PUT_edit filename body))) <> 200%Z ->
     fst (serve imdecode model
            (snd (serve imdecode model c (PUT_edit filename body)))
            (PUT_edit filename body))
     = fst (serve imdecode model c (PUT_edit filename body)) /\
     snd (serve imdecode model c (PUT_edit filename body)) = c)).
  { intros resp Hs H200 H404. rewrite Hs. cbn [fst snd]. rewrite Hs.
    cbn [fst snd]. split; [reflexivity|]. split; [|now split].
    intros [H|H]; [now elim H200 | now elim H404]. }
  pose proof (serve_edit pixels imdecode model c filename body) as Hs.
  destruct body as [ | | data].
  - apply (Hfail _ Hs); discriminate.
  - apply (Hfail _ Hs); discriminate.
  - destruct (py_get data "annotations" (JStr "")) as [v|e] eqn:Eget;
      [|apply (Hfail _ Hs); discriminate].
    pose proof (update_one_shape filename v c) as Hshape.
    destruct (Collection.update_one filename v c) as [[n c']|] eqn:Eup;
      [|apply (Hfail _ Hs); discriminate].
    assert (Hsend : Bson.sendable v = true).
    { unfold Collection.update_one in Eup.
      destruct (Bson.sendable v); [reflexivity | discriminate]. }
    clear Hfail. rewrite Hs. cbn [fst snd].
    rewrite serve_edit, Eget.
    destruct Hshape as [(Habs & -> & ->)
                       | (before & d & after & Hc & Hd & Hb & Hf & Hg & -> & ->)].
    + rewrite Eup. cbn [fst snd N.eqb status].
      split; [reflexivity|]. split; [reflexivity|]. now split.
    + assert (Hf' : Collection.find_one filename
                      (before ++ set_annotations d v :: after)
                    = Some (set_annotations d v))
        by now apply find_one_first.
      rewrite (update_one_present_sendable filename v _ _ Hsend Hf').
      rewrite outgrows_set, Hg.
      assert (Hrec' : has_record filename
                        (before ++ set_annotations d v :: after)).
      { apply has_record_find_one. eauto. }
      destruct (update_one_present filename v _ Hrec')
        as (before' & d' & after' & Hc' & _ & _ & Hf'' & Hup').
      rewrite Hf' in Hf''. injection Hf'' as <-. rewrite Hup'.
      cbn [set_annotations Doc.annotations fst snd]. rewrite json_eqb_refl.
      cbn [N.eqb]. split; [now rewrite Hc'|]. split; [reflexivity|].
      destruct (json_eqb (Doc.annotations d) v) eqn:E;
        cbn [N.eqb Pos.eqb fst snd status]; intros H; [|now elim H].
      split; [reflexivity|]. apply json_eqb_eq in E. subst c.
      destruct d as [i f a]. cbn in E. subst a. reflexivity.
Qed.

(** X10: in a collection with unique filenames a second delete of the same
    filename is always answered 404 and changes nothing, whether or not
    the first one removed a record. *)
Theorem second_delete_not_found (c : Collection.t) (filename : string) :
  unique_filenames c ->
  let c1 := snd (serve imdecode model c (DELETE_delete_image filename)) in
  serve imdecode model c1 (DELETE_delete_image filename)
    = ((Message "File not found in the database", 404%Z), c1).
Proof.
  intros Hu c1.
  assert (Hfree : ~ has_record filename c1).
  { unfold c1. rewrite serve_delete_image. cbn [snd].
    destruct (has_record_dec filename c) as [Hrec|Hrec].
    - destruct (delete_one_present _ c Hrec)
        as (before & d & after & Hc & Hd & _ & Hdel).
      rewrite Hdel. cbn [snd]. unfold unique_filenames, has_record in *.
      subst c. rewrite map_app in Hu. cbn [map] in Hu. rewrite Hd in Hu.
      apply NoDup_remove_2 in Hu. now rewrite map_app.
    - now rewrite (delete_one_absent _ c Hrec). }
  rewrite serve_delete_image, (delete_one_absent _ c1 Hfree). reflexivity.
Qed.

(** X11: the number of stored documents moves by at most one per request:
    an upload answered 200 adds one, a delete answered 200 removes one (and
    only then was the collection non-empty), and every other request, a
    refused upload or delete included, keeps the number. *)
Theorem document_count (c : Collection.t) (r : request) :
  let resp := fst (serve imdecode model c r) in
  let c' := snd (serve imdecode model c r) in
  List.length c' =
  match r with
  | POST_upload_image _ _ =>
      if (status resp =? 200)%Z then S (List.length c) else List.length c
  | DELETE_delete_image _ =>
      if (status resp =? 200)%Z then Nat.pred (List.length c)
      else List.length c
  | _ => List.length c
  end /\
  (forall filename, r = DELETE_delete_image filename ->
                    status resp = 200%Z -> c <> []).
Proof.
  intros resp c'. unfold resp, c'.
  destruct r as [[file|] ann | filename | filename | | filename body | filename].
  - split; [|discriminate]. rewrite serve_upload_image.
    destruct (PyStr.truthy (fs_filename file) && allowed_file (fs_filename file));
      [|reflexivity].
    destruct (Collection.find_one (fs_filename file) c); [reflexivity|].
    destruct (N.of_nat (List.length (fs_read file)) <? 16777216)%N;
      [|reflexivity].
    cbv zeta. destruct (Bson.storable _);
      [|reflexivity].
    cbn [fst snd status Z.eqb Pos.eqb].
    rewrite length_app. cbn [List.length]. lia.
  - split; [reflexivity | discriminate].
  - rewrite serve_delete_image. cbn [fst snd].
    destruct (has_record_dec filename c) as [Hrec|Hrec].
    + destruct (delete_one_present _ c Hrec)
        as (before & d & after & Hc & _ & _ & Hdel).
      rewrite Hdel. cbn [fst snd N.eqb Pos.eqb status Z.eqb]. subst c.
      split; [rewrite !length_app; cbn [List.length]; lia|].
      intros _ _ _. now destruct before.
    + rewrite (delete_one_absent _ c Hrec).
      cbn [fst snd N.eqb status Z.eqb]. split; [reflexivity|].
      intros _ _ H. discriminate H.
  - split; [now rewrite serve_get_image_frame | discriminate].
  - split; [now rewrite serve_get_all_frame | discriminate].
  - split; [|discriminate].
    destruct (serve_edit_collection pixels imdecode model c filename body)
      as [-> | (before & d & v & after & -> & _ & ->)]; [reflexivity|].
    rewrite !length_app. reflexivity.
  - split; [now rewrite serve_get_predictions_frame | discriminate].
Qed.

(** X12: an edit whose JSON body has no [annotations] key stores the empty
    string.  When the record with the empty string is within the document
    size limit, the record's annotations become [""], and the edit answers
    200 exactly when the stored annotations were not already the empty
    string; when it is not (a record at the limit whose annotations are
    [null]), the update is refused, the request ends in a 500 and the
    record is unchanged. *)
Theorem edit_without_annotations_key (c : Collection.t) (filename : string)
    (request_json : list (string * json)) (d : Doc.t) :
  ~ In "annotations" (map fst request_json) ->
  Collection.find_one filename c = Some d ->
  let edit := PUT_edit filename (Parsed (JDict request_json)) in
  ((Bson.doc_size (set_annotations d (JStr "")) <= 16777216)%N ->
   Collection.find_one filename (snd (serve imdecode model c edit))
     = Some (set_annotations d (JStr "")) /\
   (fst (serve imdecode model c edit)
      = (Message "Annotations updated successfully", 200%Z)
    <-> Doc.annotations d <> JStr "")) /\
  ((16777216 < Bson.doc_size (set_annotations d (JStr "")))%N ->
   serve imdecode model c edit = ((InternalServerError StoreError, 500%Z), c)).
Proof.
  intros Hkey Hf edit. unfold edit.
  assert (Hrec : has_record filename c)
    by (apply has_record_find_one; now exists d).
  assert (Hv : dict_get request_json "annotations" (JStr "") = JStr "")
    by now apply dict_get_missing.
  split.
  - intros Hfits.
    destruct (serve_edit_present c filename request_json Hrec)
      as (before & d' & after & Hc & Hd & Hb & Hf' & Hs).
    { rewrite Hv. reflexivity. }
    { rewrite Hv. intros d0 Hd0. rewrite Hf in Hd0. injection Hd0 as <-.
      now apply fits_not_outgrows. }
    rewrite Hf in Hf'. injection Hf' as <-.
    rewrite Hs, Hv. cbn [fst snd]. split.
    + now apply find_one_first.
    + destruct (json_eqb (Doc.annotations d) (JStr "")) eqn:E.
      * apply json_eqb_eq in E. split; [discriminate | intros H; now elim H].
      * apply json_eqb_neq in E. split; [intros _; exact E | reflexivity].
  - intros Hbig. rewrite serve_edit_object, Hv.
    now rewrite (update_one_outgrown filename (JStr "") c d Hf Hbig).
Qed.

(** X13: an edit followed by a fetch: for a new value that the driver can
    send and that leaves the record within the document size limit, when
    the record's stored image is well-formed UTF-8, the fetch after the
    edit answers 200 with the new annotations value, the same filename and
    the same image text. *)
Theorem edit_then_fetch (c : Collection.t) (filename : string)
    (request_json : list (string * json)) (d : Doc.t) :
  let v := dict_get request_json "annotations" (JStr "") in
  Collection.find_one filename c = Some d ->
  Utf8.well_formed (Doc.image d) = true ->
  Bson.sendable v = true ->
  (Bson.doc_size (set_annotations d v) <= 16777216)%N ->
  let edit := PUT_edit filename (Parsed (JDict request_json)) in
  let c1 := snd (serve imdecode model c edit) in
  serve imdecode model c1 (GET_get_image filename)
    = ((Entry {| entry_filename := filename;
                 entry_annotations := v;
                 entry_image := string_of_list_byte (Doc.image d) |}, 200%Z),
       c1).
Proof.
  intros v Hf Hwf Hsend Hfits edit c1. unfold c1, edit.
  assert (Hrec : has_record filename c)
    by (apply has_record_find_one; now exists d).
  destruct (serve_edit_present c filename request_json Hrec Hsend)
    as (before & d' & after & Hc & Hd & Hb & Hf' & Hs).
  { intros d0 Hd0. rewrite Hf in Hd0. injection Hd0 as <-.
    now apply fits_not_outgrows. }
  rewrite Hf in Hf'. injection Hf' as <-. rewrite Hs. cbn [snd]. fold v.
  rewrite serve_get_image.
  rewrite (find_one_first filename before after (set_annotations d v) Hb Hd).
  unfold Utf8.decode. cbn [set_annotations Doc.image Doc.filename Doc.annotations].
  now rewrite Hwf, Hd.
Qed.

(** X14: the status codes of the service: every response carries 200,
    400, 404, 415 or 500; 400 is only ever the answer to an upload or to
    an edit whose body does not parse; 415 only to an edit whose body is
    not JSON; 404 only to a delete, an edit or a prediction, never to a
    fetch, a listing or an upload. *)
Theorem status_codes (c : Collection.t) (r : request) :
  let s := status (fst (serve imdecode model c r)) in
  In s [200%Z; 400%Z; 404%Z; 415%Z; 500%Z] /\
  (s = 400%Z ->
   (exists files_image form_annotations,
       r = POST_upload_image files_image form_annotations) \/
   (exists filename, r = PUT_edit filename Malformed)) /\
  (s = 415%Z -> exists filename, r = PUT_edit filename NotJson) /\
  (s = 404%Z -> exists filename,
                  r = DELETE_delete_image filename \/
                  (exists data, r = PUT_edit filename (Parsed data)) \/
                  r = GET_get_predictions filename).
Proof.
  intros s. unfold s.
  destruct r as [[file|] ann | filename | filename | | filename body | filename].
  - rewrite serve_upload_image.
    destruct (PyStr.truthy (fs_filename file) && allowed_file (fs_filename file));
      [destruct (Collection.find_one (fs_filename file) c);
       [|destruct (N.of_nat (List.length (fs_read file)) <? 16777216)%N;
         [cbv zeta; destruct (Bson.storable _)|]]|];
      cbn [fst snd status In]; repeat split; try discriminate; eauto 8.
  - cbn. repeat split; try discriminate; eauto 8.
  - rewrite serve_delete_image.
    destruct (fst (Collection.delete_one filename c) =? 1)%N;
      cbn; repeat split; try discriminate; eauto 8.
  - rewrite serve_get_image.
    destruct (Collection.find_one filename c) as [d|];
      [destruct (Utf8.decode (Doc.image d))|];
      cbn; repeat split; try discriminate; eauto 8.
  - rewrite serve_get_all. destruct (decode_images c);
      cbn; repeat split; try discriminate; eauto 8.
  - rewrite serve_edit. destruct body as [ | | data];
      [| |destruct (py_get data "annotations" (JStr "")) as [v|e];
          [destruct (Collection.update_one filename v c) as [[n c']|];
           [destruct (snd n =? 1)%N|]|]];
      cbn [fst snd status In]; repeat split; try discriminate; eauto 10.
  - rewrite serve_get_predictions.
    destruct (Collection.find_one filename c) as [d|];
      [destruct (Base64.b64decode (Doc.image d)) as [[|b bs]|];
       [|destruct (model (imdecode (b :: bs))) as [result|e];
         [destruct (filter_preds (names result) (pred result))|]|]|];
      cbn; repeat split; try discriminate; eauto 8.
Qed.

End Further.

(** ** The pipeline on whole detector results *)

Module PipelineCases.

(** The inner loop either names every row or stops at a [KeyError]. *)
Lemma make_annotations_cases (result_names : Z -> option string)
    (rows : list (Z * Q * (Q * Q * Q * Q))) :
  (Forall (fun row => result_names (fst (fst row)) <> None) rows /\
   exists out, make_annotations result_names rows = Return out) \/
  (Exists (fun row => result_names (fst (fst row)) = None) rows /\
   make_annotations result_names rows = Raise KeyError).
Proof.
  induction rows as [|[[l s] [[[a b] c] d]] rows IH].
  - left. split; [constructor | now exists []].
  - cbn [make_annotations make_annotation].
    destruct (result_names l) as [name|] eqn:E; cbn [of_option obind].
    + destruct IH as [[Hall [out Hout]] | [Hex Hraise]].
      * left. split.
        -- constructor; [cbn; congruence | exact Hall].
        -- rewrite Hout. cbn [obind]. eauto.
      * right. split; [now apply Exists_cons_tl|]. now rewrite Hraise.
    + right. split; [|reflexivity]. apply Exists_cons_hd. exact E.
Qed.

Lemma filter_pred_cases (result_names : Z -> option string) (group : list raw) :
  (exists out, filter_pred result_names group = Return out) \/
  ((exists r, In r group /\ unnamed_survivor result_names r) /\
   filter_pred result_names group = Raise KeyError).
Proof.
  unfold filter_pred. cbv zeta. rewrite PipelineFacts.filtered_rows.
  destruct (make_annotations_cases result_names
              (map (fun r => (Tensor.int (cls r), score r,
                              (x1 r, y1 r, x2 r, y2 r)))
                 (filter (fun r => Tensor.gt (score r) (1 # 2)) group)))
    as [[_ Hout] | [Hex Hraise]].
  - now left.
  - right. split; [|exact Hraise].
    apply Exists_exists in Hex. destruct Hex as (row & Hin & Hnone).
    apply in_map_iff in Hin. destruct Hin as (r & <- & Hr).
    apply filter_In in Hr. destruct Hr as [Hr Hgt].
    exists r. split; [exact Hr|]. split; [now apply PipelineFacts.gt_iff|].
    exact Hnone.
Qed.

Lemma filter_preds_named (result_names : Z -> option string)
    (groups : list (list raw)) :
  (forall g r, In g groups -> In r g -> (1 # 2 < score r)%Q ->
               result_names (Tensor.int (cls r)) <> None) ->
  exists out,
    filter_preds result_names groups = Return out /\
    List.length out = List.length groups /\
    map (map Some) out = map (spec_filter result_names) groups.
Proof.
  induction groups as [|g groups IH]; intros Hnames.
  - exists []. repeat split.
  - destruct IH as (out & Hout & Hlen & Hspec).
    { intros g' r Hg'. apply Hnames. now right. }
    destruct (PipelineFacts.filter_pred_spec result_names g)
      as (o & Ho & Hos & _).
    { intros r Hr. apply (Hnames g r); [now left | assumption]. }
    exists (o :: out). cbn [filter_preds map List.length].
    rewrite Ho, Hout, Hlen, Hos, Hspec. repeat split.
Qed.

Lemma filter_preds_cases (result_names : Z -> option string)
    (groups : list (list raw)) :
  (exists out, filter_preds result_names groups = Return out) \/
  ((exists g r, In g groups /\ In r g /\ unnamed_survivor result_names r) /\
   filter_preds result_names groups = Raise KeyError).
Proof.
  induction groups as [|g groups IH].
  - left. now exists [].
  - cbn [filter_preds].
    destruct (filter_pred_cases result_names g)
      as [[o Ho] | [(r & Hr & Hs) Hraise]].
    + rewrite Ho. cbn [obind].
      destruct IH as [[out Hout] | [(g' & r & Hg' & Hr & Hs) Hraise]].
      * left. rewrite Hout. cbn [obind]. eauto.
      * right. rewrite Hraise. split; [|reflexivity].
        exists g', r. repeat split; try assumption; try apply Hs. now right.
    + right. rewrite Hraise. split; [|reflexivity].
      exists g, r. repeat split; try assumption; try apply Hs. now left.
Qed.

Lemma make_annotations_key_error (result_names : Z -> option string)
    (rows : list (Z * Q * (Q * Q * Q * Q))) :
  Exists (fun row => result_names (fst (fst row)) = None) rows ->
  make_annotations result_names rows = Raise KeyError.
Proof.
  intros Hex.
  destruct (make_annotations_cases result_names rows)
    as [[Hall _] | [_ Hraise]]; [|exact Hraise].
  exfalso. apply Exists_exists in Hex. destruct Hex as (row & Hin & Hnone).
  rewrite Forall_forall in Hall. exact (Hall row Hin Hnone).
Qed.

Lemma filter_pred_key_error (result_names : Z -> option string)
    (group : list raw) (r : raw) :
  In r group -> unnamed_survivor result_names r ->
  filter_pred result_names group = Raise KeyError.
Proof.
  intros Hr [Hlt Hnone]. unfold filter_pred. cbv zeta.
  rewrite PipelineFacts.filtered_rows. apply make_annotations_key_error.
  apply Exists_exists.
  exists (Tensor.int (cls r), score r, (x1 r, y1 r, x2 r, y2 r)).
  split; [|exact Hnone]. apply in_map_iff. exists r. split; [reflexivity|].
  apply filter_In. split; [exact Hr | now apply PipelineFacts.gt_iff].
Qed.

Lemma filter_preds_key_error (result_names : Z -> option string)
    (groups : list (list raw)) (g : list raw) (r : raw) :
  In g groups -> In r g -> unnamed_survivor result_names r ->
  filter_preds result_names groups = Raise KeyError.
Proof.
  intros Hg Hr Hs. induction groups as [|g' groups IH]; [destruct Hg|].
  cbn [filter_preds].
  destruct (filter_pred_cases result_names g') as [[o Ho] | [_ Hraise]];
    [|now rewrite Hraise].
  rewrite Ho. cbn [obind]. destruct Hg as [->|Hg].
  - rewrite (filter_pred_key_error result_names g r Hr Hs) in Ho. discriminate.
  - now rewrite (IH Hg).
Qed.

End PipelineCases.

Section FurtherPredictions.

Variable pixels : Type.
Variable imdecode : list byte -> option pixels.
Variable model : option pixels -> outcome detections.

(** X15: what is predicted is what was uploaded: for a record whose image
    field encodes a non-empty payload, when the detector answers on the
    decoded payload and names every class that passes the filter, the
    prediction request answers 200 with one list per detection group, each
    the filtered and labelled entries of its group, and the collection is
    unchanged. *)
Theorem prediction_of_stored_payload (c : Collection.t) (filename : string)
    (d : Doc.t) (B : list byte) (result : detections) :
  Collection.find_one filename c = Some d ->
  Doc.image d = Base64.b64encode B ->
  B <> [] ->
  model (imdecode B) = Return result ->
  (forall g r, In g (pred result) -> In r g -> (1 # 2 < score r)%Q ->
               names result (Tensor.int (cls r)) <> None) ->
  exists out,
    serve imdecode model c (GET_get_predictions filename)
      = ((Predictions out, 200%Z), c) /\
    List.length out = List.length (pred result) /\
    map (map Some) out = map (spec_filter (names result)) (pred result).
Proof.
  intros Hf HB Hne Hmodel Hnames.
  destruct (PipelineCases.filter_preds_named (names result) (pred result) Hnames)
    as (out & Hout & Hlen & Hspec).
  exists out. split; [|split; assumption].
  rewrite serve_get_predictions, Hf, HB, Base64Facts.b64decode_b64encode.
  destruct B as [|b bs]; [now elim Hne|]. now rewrite Hmodel, Hout.
Qed.

End FurtherPredictions.

(** X16: the only exception of the normalisation loop is the [KeyError] of
    the vocabulary lookup, and it is raised exactly when some entry with a
    confidence strictly above one half has a class index outside the
    vocabulary; entries at or below one half are never looked up. *)
Theorem filter_key_error (result_names : Z -> option string)
    (groups : list (list raw)) :
  (filter_preds result_names groups = Raise KeyError <->
   exists g r, In g groups /\ In r g /\
               (1 # 2 < score r)%Q /\
               result_names (Tensor.int (cls r)) = None) /\
  (forall e, filter_preds result_names groups = Raise e -> e = KeyError).
Proof.
  split; [split|].
  - intros Hraise.
    destruct (PipelineCases.filter_preds_cases result_names groups)
      as [[out Hout] | [(g & r & Hg & Hr & Hs1 & Hs2) _]]; [congruence|].
    now exists g, r.
  - intros (g & r & Hg & Hr & Hs1 & Hs2).
    apply (PipelineCases.filter_preds_key_error result_names groups g r Hg Hr).
    now split.
  - intros e He.
    destruct (PipelineCases.filter_preds_cases result_names groups)
      as [[out Hout] | [_ Hraise]]; congruence.
Qed.

(** ** Letter case in the extension check *)

Lemma lower_ascii_dot (x : ascii) :
  Ascii.eqb (PyStr.lower_ascii x) "." = Ascii.eqb x ".".
Proof. destruct x as [[] [] [] [] [] [] [] []]; reflexivity. Qed.

Lemma lower_ascii_idem (x : ascii) :
  PyStr.lower_ascii (PyStr.lower_ascii x) = PyStr.lower_ascii x.
Proof. destruct x as [[] [] [] [] [] [] [] []]; reflexivity. Qed.

Lemma lower_idem (s : string) : PyStr.lower (PyStr.lower s) = PyStr.lower s.
Proof.
  induction s as [|x s IH]; [reflexivity|].
  cbn [PyStr.lower]. now rewrite lower_ascii_idem, IH.
Qed.

Lemma contains_dot_lower (s : string) :
  PyStr.contains "." (PyStr.lower s) = PyStr.contains "." s.
Proof.
  induction s as [|x s IH]; [reflexivity|].
  cbn [PyStr.lower PyStr.contains]. now rewrite lower_ascii_dot, IH.
Qed.

Lemma rsplit1_dot_lower (s : string) :
  PyStr.rsplit1 "." (PyStr.lower s) = map PyStr.lower (PyStr.rsplit1 "." s).
Proof.
  induction s as [|x s IH]; [reflexivity|].
  cbn [PyStr.lower PyStr.rsplit1]. rewrite IH.
  destruct (rsplit1_cases "." s) as [[_ Hr] | (a & b & _ & _ & Hr)];
    rewrite Hr; cbn [map].
  - rewrite lower_ascii_dot. destruct (Ascii.eqb x "."); reflexivity.
  - reflexivity.
Qed.

(** X17: the extension check does not look at letter case anywhere in the
    name: a filename and its lowercased form are accepted or rejected
    alike. *)
Theorem allowed_file_ignores_case (filename : string) :
  allowed_file (PyStr.lower filename) = allowed_file filename.
Proof.
  unfold allowed_file. rewrite contains_dot_lower, rsplit1_dot_lower.
  destruct (PyStr.contains "." filename); [|reflexivity].
  rewrite nth_error_map.
  destruct (nth_error (PyStr.rsplit1 "." filename) 1) as [ext|]; [|reflexivity].
  cbn [option_map]. now rewrite lower_idem.
Qed.

(** X18: the image field that an upload stores is a third larger than the
    payload: for a payload of [n] bytes the encoded field has
    [4 * ceil(n / 3)] bytes, all of them ASCII. *)
Theorem encoded_image_length (image_data : list byte) :
  List.length (Base64.b64encode image_data)
    = (4 * ((List.length image_data + 2) / 3))%nat /\
  forallb Base64.is_ascii (Base64.b64encode image_data) = true.
Proof.
  split; [|apply Base64Facts.b64encode_ascii].
  induction image_data as [ | a | a b | a b c rest IH ]
    using Base64Facts.list_ind3; try reflexivity.
  cbn [Base64.b64encode List.length]. rewrite IH.
  replace (S (S (S (List.length rest))) + 2)%nat
    with (1 * 3 + (List.length rest + 2))%nat by lia.
  rewrite Nat.div_add_l by discriminate. lia.
Qed.

(** ** Concrete runs of the further properties *)

Lemma stored_documents_are_uploads_run :
  let file := {| fs_filename := "cat.png"; fs_read := [x89; x50] |} in
  let rs := [POST_upload_image (Some file) (Some "[]")] in
  let d := Doc.mk (Base64.b64encode [x89; x50]) "cat.png" (JStr "[]") in
  In d (run Toy.imdecode Toy.model [] rs) /\
  allowed_file (Doc.filename d) = true.
Proof.
  intros file rs d.
  assert (H : In d (run Toy.imdecode Toy.model [] rs)) by (left; reflexivity).
  split; [exact H|].
  exact (proj1 (stored_documents_are_uploads _ Toy.imdecode Toy.model rs d H)).
Defined.

Lemma listing_all_or_nothing_run :
  let good := Doc.mk (Base64.b64encode [x89]) "cat.png" (JStr "[]") in
  let bad := Doc.mk [xff] "raw.png" JNull in
  Forall (fun d => Utf8.well_formed (Doc.image d) = true) [good] /\
  Exists (fun d => Utf8.well_formed (Doc.image d) = false) [good; bad] /\
  serve Toy.imdecode Toy.model [good] GET_get_all
    = ((Entries (map entry_of [good]), 200%Z), [good]) /\
  serve Toy.imdecode Toy.model [good; bad] GET_get_all
    = ((InternalServerError UnicodeDecodeError, 500%Z), [good; bad]).
Proof.
  intros good bad.
  assert (H1 : Forall (fun d => Utf8.well_formed (Doc.image d) = true) [good])
    by (constructor; [reflexivity | constructor]).
  assert (H2 : Exists (fun d => Utf8.well_formed (Doc.image d) = false)
                 [good; bad])
    by (apply Exists_cons_tl, Exists_cons_hd; reflexivity).
  split; [exact H1|]. split; [exact H2|]. split.
  - exact (proj1 (listing_all_or_nothing _ Toy.imdecode Toy.model [good]) H1).
  - exact (proj2 (listing_all_or_nothing _ Toy.imdecode Toy.model [good; bad])
             H2).
Defined.

Lemma fetch_after_requests_run :
  let file := {| fs_filename := "cat.png"; fs_read := [x89; x50] |} in
  let rs := [POST_upload_image (Some file) (Some "[]")] in
  has_record "cat.png" (run Toy.imdecode Toy.model [] rs) /\
  exists d B,
    Collection.find_one "cat.png" (run Toy.imdecode Toy.model [] rs) = Some d /\
    Doc.image d = Base64.b64encode B.
Proof.
  intros file rs.
  assert (H : has_record "cat.png" (run Toy.imdecode Toy.model [] rs))
    by (left; reflexivity).
  split; [exact H|].
  destruct (fetch_after_requests _ Toy.imdecode Toy.model rs "cat.png" H)
    as (d & B & Hf & _ & _ & _ & HB).
  exists d, B. split; [exact Hf | exact HB].
Defined.

Lemma upload_all_or_nothing_run :
  let file := {| fs_filename := "cat.png"; fs_read := [x89; x50] |} in
  let upload := POST_upload_image (Some file) None in
  status (fst (serve Toy.imdecode Toy.model [] upload)) = 200%Z /\
  exists file',
    Some file = Some file' /\
    snd (serve Toy.imdecode Toy.model [] upload)
      = [] ++ [Doc.mk (Base64.b64encode (fs_read file')) (fs_filename file')
                 (stored_annotations None)].
Proof.
  intros file upload.
  assert (H : status (fst (serve Toy.imdecode Toy.model [] upload)) = 200%Z)
    by reflexivity.
  split; [exact H|].
  destruct (upload_all_or_nothing _ Toy.imdecode Toy.model [] (Some file) None)
    as (_ & _ & H3 & _).
  destruct (H3 H) as (file' & Hfile & _ & _ & _ & _ & _ & Hc).
  exists file'. split; [exact Hfile | exact Hc].
Defined.

Lemma other_filenames_untouched_run :
  let cat := Doc.mk (Base64.b64encode [x89]) "cat.png" (JStr "[]") in
  let dog := Doc.mk (Base64.b64encode [x50]) "dog.png" JNull in
  target (DELETE_delete_image "cat.png") <> Some "dog.png" /\
  Collection.find_one "dog.png"
    (snd (serve Toy.imdecode Toy.model [cat; dog] (DELETE_delete_image "cat.png")))
    = Collection.find_one "dog.png" [cat; dog].
Proof.
  intros cat dog.
  assert (H : target (DELETE_delete_image "cat.png") <> Some "dog.png")
    by discriminate.
  split; [exact H|].
  exact (other_filenames_untouched _ Toy.imdecode Toy.model [cat; dog]
           (DELETE_delete_image "cat.png") "dog.png" H).
Defined.

Lemma upload_then_delete_restores_run :
  let dog := Doc.mk (Base64.b64encode [x50]) "dog.png" JNull in
  let file := {| fs_filename := "cat.png"; fs_read := [x89; x50] |} in
  allowed_file (fs_filename file) = true /\
  ~ has_record (fs_filename file) [dog] /\
  (N.of_nat (List.length (fs_read file)) < 16777216)%N /\
  Bson.encodable (stored_annotations (Some "[]")) = true /\
  (Bson.doc_size
     (Doc.mk (Base64.b64encode (fs_read file)) (fs_filename file)
        (stored_annotations (Some "[]"))) <= 16777216)%N /\
  serve Toy.imdecode Toy.model
    (snd (serve Toy.imdecode Toy.model [dog]
            (POST_upload_image (Some file) (Some "[]"))))
    (DELETE_delete_image "cat.png")
    = ((Message "File deleted successfully", 200%Z), [dog]).
Proof.
  intros dog file.
  assert (Ha : allowed_file (fs_filename file) = true) by reflexivity.
  assert (Hn : ~ has_record (fs_filename file) [dog])
    by (intros [H|[]]; discriminate H).
  assert (Hs : (N.of_nat (List.length (fs_read file)) < 16777216)%N)
    by reflexivity.
  assert (Ht : Bson.encodable (stored_annotations (Some "[]")) = true)
    by reflexivity.
  assert (Hf : (Bson.doc_size
                  (Doc.mk (Base64.b64encode (fs_read file)) (fs_filename file)
                     (stored_annotations (Some "[]"))) <= 16777216)%N)
    by (apply N.leb_le; reflexivity).
  repeat (split; [assumption|]).
  exact (proj2 (upload_then_delete_restores _ Toy.imdecode Toy.model [dog] file
                  (Some "[]") Ha Hn Hs Ht Hf)).
Defined.

Lemma delete_frees_filename_run :
  let cat := Doc.mk (Base64.b64encode [x89]) "cat.png" (JStr "[]") in
  let file := {| fs_filename := "cat.png"; fs_read := [x50] |} in
  unique_filenames [cat] /\
  has_record (fs_filename file) [cat] /\
  fst (serve Toy.imdecode Toy.model
         (snd (serve Toy.imdecode Toy.model [cat]
                 (DELETE_delete_image (fs_filename file))))
         (POST_upload_image (Some file) None))
    = (Message "File uploaded successfully", 200%Z).
Proof.
  intros cat file.
  assert (Hu : unique_filenames [cat])
    by (constructor; [intros [] | constructor]).
  assert (Hr : has_record (fs_filename file) [cat]) by (left; reflexivity).
  assert (Ha : allowed_file (fs_filename file) = true) by reflexivity.
  assert (Hs : (N.of_nat (List.length (fs_read file)) < 16777216)%N)
    by reflexivity.
  assert (Hf : (Bson.doc_size
                  (Doc.mk (Base64.b64encode (fs_read file)) (fs_filename file)
                     (stored_annotations None)) <= 16777216)%N)
    by (apply N.leb_le; reflexivity).
  split; [exact Hu|]. split; [exact Hr|].
  exact (f_equal fst
           (delete_frees_filename _ Toy.imdecode Toy.model [cat] file None
              Hu Hr Ha Hs eq_refl Hf)).
Defined.

Lemma repeated_edit_run :
  let cat := Doc.mk (Base64.b64encode [x89]) "cat.png" (JStr "[]") in
  let edit :=
    PUT_edit "cat.png" (Parsed (JDict [("annotations", JList [JStr "dog"])])) in
  let c1 := snd (serve Toy.imdecode Toy.model [cat] edit) in
  status (fst (serve Toy.imdecode Toy.model [cat] edit)) = 200%Z /\
  fst (serve Toy.imdecode Toy.model c1 edit)
    = (Message "File not found or annotations not updated", 404%Z).
Proof.
  intros cat edit c1.
  assert (H : status (fst (serve Toy.imdecode Toy.model [cat] edit)) = 200%Z)
    by reflexivity.
  split; [exact H|].
  destruct (repeated_edit _ Toy.imdecode Toy.model [cat] "cat.png"
              (Parsed (JDict [("annotations", JList [JStr "dog"])])))
    as (_ & H2 & _).
  exact (H2 (or_introl H)).
Defined.

Lemma second_delete_not_found_run :
  let cat := Doc.mk (Base64.b64encode [x89]) "cat.png" (JStr "[]") in
  unique_filenames [cat] /\
  serve Toy.imdecode Toy.model
    (snd (serve Toy.imdecode Toy.model [cat] (DELETE_delete_image "cat.png")))
    (DELETE_delete_image "cat.png")
    = ((Message "File not found in the database", 404%Z), []).
Proof.
  intros cat.
  assert (Hu : unique_filenames [cat])
    by (constructor; [intros [] | constructor]).
  split; [exact Hu|].
  exact (second_delete_not_found _ Toy.imdecode Toy.model [cat] "cat.png" Hu).
Defined.

Lemma document_count_run :
  let cat := Doc.mk (Base64.b64encode [x89]) "cat.png" (JStr "[]") in
  let r := DELETE_delete_image "cat.png" in
  status (fst (serve Toy.imdecode Toy.model [cat] r)) = 200%Z /\
  [cat] <> [].
Proof.
  intros cat r.
  assert (H : status (fst (serve Toy.imdecode Toy.model [cat] r)) = 200%Z)
    by reflexivity.
  split; [exact H|].
  exact (proj2 (document_count _ Toy.imdecode Toy.model [cat] r)
           "cat.png" eq_refl H).
Defined.

Lemma edit_without_annotations_key_run :
  let cat := Doc.mk (Base64.b64encode [x89]) "cat.png" (JStr "[]") in
  let body := [("labels", JList [])] in
  ~ In "annotations" (map fst body) /\
  Collection.find_one "cat.png" [cat] = Some cat /\
  (Bson.doc_size (set_annotations cat (JStr "")) <= 16777216)%N /\
  Collection.find_one "cat.png"
    (snd (serve Toy.imdecode Toy.model [cat]
            (PUT_edit "cat.png" (Parsed (JDict body)))))
    = Some (set_annotations cat (JStr "")).
Proof.
  intros cat body.
  assert (Hk : ~ In "annotations" (map fst body))
    by (intros [H|[]]; discriminate H).
  assert (Hf : Collection.find_one "cat.png" [cat] = Some cat) by reflexivity.
  assert (Hs : (Bson.doc_size (set_annotations cat (JStr "")) <= 16777216)%N)
    by (apply N.leb_le; reflexivity).
  split; [exact Hk|]. split; [exact Hf|]. split; [exact Hs|].
  exact (proj1 (proj1 (edit_without_annotations_key _ Toy.imdecode Toy.model
                         [cat] "cat.png" body cat Hk Hf) Hs)).
Defined.

Lemma edit_then_fetch_run :
  let cat := Doc.mk (Base64.b64encode [x89]) "cat.png" (JStr "[]") in
  let body := [("annotations", JList [JStr "dog"; JFloat S754_nan])] in
  let v := JList [JStr "dog"; JFloat S754_nan] in
  Collection.find_one "cat.png" [cat] = Some cat /\
  Utf8.well_formed (Doc.image cat) = true /\
  Bson.sendable v = true /\
  (Bson.doc_size (set_annotations cat v) <= 16777216)%N /\
  fst (serve Toy.imdecode Toy.model
         (snd (serve Toy.imdecode Toy.model [cat]
                 (PUT_edit "cat.png" (Parsed (JDict body)))))
         (GET_get_image "cat.png"))
    = (Entry {| entry_filename := "cat.png";
                entry_annotations := v;
                entry_image := string_of_list_byte (Doc.image cat) |}, 200%Z).
Proof.
  intros cat body v.
  assert (Hf : Collection.find_one "cat.png" [cat] = Some cat) by reflexivity.
  assert (Hw : Utf8.well_formed (Doc.image cat) = true) by reflexivity.
  assert (Hs : Bson.sendable v = true) by reflexivity.
  assert (Hz : (Bson.doc_size (set_annotations cat v) <= 16777216)%N)
    by (apply N.leb_le; reflexivity).
  split; [exact Hf|]. split; [exact Hw|]. split; [exact Hs|].
  split; [exact Hz|].
  exact (f_equal fst
           (edit_then_fetch _ Toy.imdecode Toy.model [cat] "cat.png" body cat
              Hf Hw Hs Hz)).
Defined.

Lemma status_codes_run :
  let r := DELETE_delete_image "cat.png" in
  status (fst (serve Toy.imdecode Toy.model [] r)) = 404%Z /\
  exists filename,
    r = DELETE_delete_image filename \/
    (exists data, r = PUT_edit filename (Parsed data)) \/
    r = GET_get_predictions filename.
Proof.
  intros r.
  assert (H : status (fst (serve Toy.imdecode Toy.model [] r)) = 404%Z)
    by reflexivity.
  split; [exact H|].
  destruct (status_codes _ Toy.imdecode Toy.model [] r) as (_ & _ & _ & H4).
  exact (H4 H).
Defined.

Lemma prediction_of_stored_payload_run :
  let B := [x89; x50; x4e; x47] in
  let cat := Doc.mk (Base64.b64encode B) "cat.png" (JStr "[]") in
  let result := {| pred := [Toy.group]; names := Toy.vocabulary |} in
  Collection.find_one "cat.png" [cat] = Some cat /\
  B <> [] /\
  Toy.model (Toy.imdecode B) = Return result /\
  exists out,
    serve Toy.imdecode Toy.model [cat] (GET_get_predictions "cat.png")
      = ((Predictions out, 200%Z), [cat]) /\
    List.length out = 1%nat.
Proof.
  intros B cat result.
  assert (Hf : Collection.find_one "cat.png" [cat] = Some cat) by reflexivity.
  assert (HB : Doc.image cat = Base64.b64encode B) by reflexivity.
  assert (Hne : B <> []) by discriminate.
  assert (Hm : Toy.model (Toy.imdecode B) = Return result) by reflexivity.
  assert (Hn : forall g r, In g (pred result) -> In r g -> (1 # 2 < score r)%Q ->
                           names result (Tensor.int (cls r)) <> None).
  { intros g r [<-|[]] Hr _.
    destruct Hr as [<-|[<-|[<-|[<-|[]]]]]; cbv; discriminate. }
  split; [exact Hf|]. split; [exact Hne|]. split; [exact Hm|].
  destruct (prediction_of_stored_payload _ Toy.imdecode Toy.model [cat]
              "cat.png" cat B result Hf HB Hne Hm Hn) as (out & Hs & Hl & _).
  exists out. split; [exact Hs | exact Hl].
Defined.

Lemma filter_key_error_run :
  let unknown := Toy.row (9 # 10) 5 in
  (1 # 2 < score unknown)%Q /\
  Toy.vocabulary (Tensor.int (cls unknown)) = None /\
  filter_preds Toy.vocabulary [Toy.group; [unknown]] = Raise KeyError.
Proof.
  intros unknown.
  assert (H1 : (1 # 2 < score unknown)%Q) by reflexivity.
  assert (H2 : Toy.vocabulary (Tensor.int (cls unknown)) = None) by reflexivity.
  split; [exact H1|]. split; [exact H2|].
  apply (proj1 (filter_key_error Toy.vocabulary [Toy.group; [unknown]])).
  exists [unknown], unknown.
  split; [right; left; reflexivity|]. split; [left; reflexivity|].
  split; [exact H1 | exact H2].
Defined.
